(** * Audio-derived interview scoring: a shallow embedding

    The development follows three modules of the interview simulator:
    - [simple_audio_analyzer.py]: the heuristic fallback extractor,
    - [audio_analyzer.py]: the signal extractor entry point,
    - [adaptive_interviewer.py]: the performance aggregator and the
      adaptive controller,
    together with the callers in [tasks.py] and [agents.py] that build
    the question task from them.

    Conventions of the embedding.
    - Python floats and ints are exact rationals ([Q]); comparisons are the
      rational ones and [round(x, n)] is round-half-to-even on the decimal
      expansion.  Equalities between numbers are stated with [==].
    - Python [str] is [string]; [lower] and whitespace are the ASCII ones.
    - A Python [dict] with string keys is a [gmap string _].
    - A call that may raise returns an [outcome]; [try]/[except] is
      [try_except]. *)

From Stdlib Require Import QArith Qabs Qround Lqa ZArith Lia Ascii.
From stdpp Require Import gmap strings list fin_maps pretty.

Local Open Scope Z_scope.
Local Open Scope Q_scope.

Set Warnings "-clear-no-such-hyp".

(** ** Numbers *)

Module PyNum.

(** [x < y] on Python numbers, as a boolean. *)
Definition ltb (x y : Q) : bool :=
  match x ?= y with Lt => true | _ => false end.

(** [x <= y] on Python numbers, as a boolean. *)
Definition leb (x y : Q) : bool :=
  match x ?= y with Gt => false | _ => true end.

(** [x == y] on Python numbers, as a boolean. *)
Definition eqb (x y : Q) : bool :=
  match x ?= y with Eq => true | _ => false end.

(** Python's [max(a, b)]: the first argument unless the second is
    strictly larger. *)
Definition max (a b : Q) : Q := if ltb a b then b else a.

(** Python's [min(a, b)]: the first argument unless the second is
    strictly smaller. *)
Definition min (a b : Q) : Q := if ltb b a then b else a.

(** Round half to even, to an integer. *)
Definition round_half_even (x : Q) : Z :=
  let f := Qfloor x in
  let r := x - inject_Z f in
  if ltb r (1 # 2) then f
  else if ltb (1 # 2) r then (f + 1)%Z
  else if Z.even f then f else (f + 1)%Z.

(** [round(x, ndigits)] for a non-negative number of digits. *)
Definition round (x : Q) (ndigits : nat) : Q :=
  let scale := inject_Z (10 ^ Z.of_nat ndigits) in
  inject_Z (round_half_even (x * scale)) / scale.

(** [sum(xs)] *)
Definition sum (xs : list Q) : Q := fold_left Qplus xs 0.

(** [len(xs)] as a number *)
Definition len {A} (xs : list A) : Q := inject_Z (Z.of_nat (length xs)).

End PyNum.

(** ** Strings *)

Module PyStr.

(** [c.isspace()] on an ASCII character: tab, line feed, vertical tab,
    form feed, carriage return, the four separators 28-31 and space. *)
Definition isspace (c : ascii) : bool :=
  let n := nat_of_ascii c in
  ((9 <=? n)%nat && (n <=? 13)%nat) || ((28 <=? n)%nat && (n <=? 32)%nat).

(** [c.lower()] on an ASCII character. *)
Definition lower_char (c : ascii) : ascii :=
  let n := nat_of_ascii c in
  if (65 <=? n)%nat && (n <=? 90)%nat then ascii_of_nat (n + 32) else c.

(** [s.lower()] *)
Fixpoint lower (s : string) : string :=
  match s with
  | EmptyString => EmptyString
  | String c s' => String (lower_char c) (lower s')
  end.

(** [s.startswith(p)] *)
Fixpoint startswith (p s : string) : bool :=
  match p, s with
  | EmptyString, _ => true
  | String a p', String b s' => if Stdlib.Strings.Ascii.eqb a b then startswith p' s' else false
  | String _ _, EmptyString => false
  end.

(** [sub in s] *)
Fixpoint contains (sub s : string) : bool :=
  startswith sub s ||
  match s with
  | EmptyString => false
  | String _ s' => contains sub s'
  end.

(** Scan for [s.count(sub)] with [sub] non-empty: [skip] characters of
    the last match are still to be stepped over. *)
Fixpoint count_go (sub : string) (skip : nat) (s : string) : nat :=
  match s with
  | EmptyString => 0
  | String _ s' =>
      match skip with
      | S k => count_go sub k s'
      | O =>
          if startswith sub s
          then S (count_go sub (String.length sub - 1) s')
          else count_go sub 0 s'
      end
  end.

(** [s.count(sub)]: occurrences that do not overlap, from the left. *)
Definition count (s sub : string) : nat :=
  match sub with
  | EmptyString => S (String.length s)
  | String _ _ => count_go sub 0 s
  end.

(** Scan for [s.split()]: [cur] is the word being read, reversed. *)
Fixpoint split_go (cur : option string) (s : string) : list string :=
  match s with
  | EmptyString => option_list (String.rev <$> cur)
  | String c s' =>
      if isspace c
      then option_list (String.rev <$> cur) ++ split_go None s'
      else split_go (Some (String c (default EmptyString cur))) s'
  end.

(** [s.split()]: the maximal runs of characters that are not
    whitespace. *)
Definition split (s : string) : list string := split_go None s.

(** [sep.join(parts)] *)
Fixpoint join (sep : string) (parts : list string) : string :=
  match parts with
  | [] => EmptyString
  | [p] => p
  | p :: rest => p +:+ sep +:+ join sep rest
  end.

(** Truth value of a string: non-empty. *)
Definition truthy (s : string) : bool :=
  match s with EmptyString => false | String _ _ => true end.

(** [any(w in s for w in ws)] *)
Definition any_in (ws : list string) (s : string) : bool :=
  existsb (fun w => contains w s) ws.

End PyStr.

(** ** Exceptions, values and the environment *)

(** A raised exception: its class and [str(e)]. Only subclasses of
    [Exception] are modelled. *)
Record exn := Exn { exn_class : string; exn_msg : string }.

(** The result of running a Python expression or block. *)
Inductive outcome (A : Type) : Type :=
| Return (a : A)
| Raise (e : exn).
Arguments Return {A} a.
Arguments Raise {A} e.

#[global] Instance outcome_ret : MRet outcome := fun _ a => Return a.
#[global] Instance outcome_bind : MBind outcome := fun _ _ f m =>
  match m with
  | Return a => f a
  | Raise e => Raise e
  end.

(** [try: body except Exception as e: handler(e)] *)
Definition try_except {A} (body : outcome A) (handler : exn → outcome A) : outcome A :=
  match body with
  | Return a => Return a
  | Raise e => handler e
  end.

(** [num / den] on floats. *)
Definition true_div (num den : Q) : outcome Q :=
  if PyNum.eqb den 0 then Raise (Exn "ZeroDivisionError" "float division by zero")
  else Return (num / den).

(** A value stored in a metrics dict: a number or a string. *)
Inductive value : Type :=
| VNum (q : Q)
| VStr (s : string).

(** Truth value: a number is true unless it equals 0, a string unless it
    is empty. *)
Definition truthy (v : value) : bool :=
  match v with
  | VNum q => negb (PyNum.eqb q 0)
  | VStr s => PyStr.truthy s
  end.

(** A metrics record, [Dict[str, Any]]. *)
Abbreviation Metrics := (gmap string value).

(** A dict display [{k1: v1, k2: v2, ...}]. *)
Definition dict {V} (items : list (string * V)) : gmap string V := list_to_map items.

(** [d.get(key, default)] *)
Definition get {V} (d : gmap string V) (key : string) (default : V) : V :=
  match d !! key with
  | Some v => v
  | None => default
  end.

(** [sum(xs)] over stored values: adding a string to a number raises. *)
Fixpoint sum_values (acc : Q) (xs : list value) : outcome Q :=
  match xs with
  | [] => Return acc
  | VNum q :: xs' => sum_values (acc + q) xs'
  | VStr _ :: _ => Raise (Exn "TypeError" "unsupported operand type(s) for +")
  end.

(** The waveform library, when it could be imported: decoding a file,
    and the feature extraction and scoring of the decoded signal (numeric
    array code, taken as given). *)
Record Librosa := {
  Signal : Type;
  load : string → outcome Signal;
  analyze_signal : Signal → outcome Metrics
}.

(** What the code sees of its environment during one call. *)
Record World := {
  librosa : option Librosa;            (* [None]: the import failed *)
  path_exists : string → bool;         (* [os.path.exists] *)
  getsize : string → outcome Z;        (* [os.path.getsize] *)
  wave_read : string → outcome (Z * Z) (* frame count and frame rate of a WAV file *)
}.

(** [HAS_LIBROSA] *)
Definition HAS_LIBROSA (w : World) : bool :=
  match librosa w with Some _ => true | None => false end.

(** ** simple_audio_analyzer.py *)

(** [calculate_pace_score(wpm)] *)
Definition calculate_pace_score (wpm : Q) : Q :=
  if PyNum.eqb wpm 0 then 30
  else if PyNum.leb 140 wpm && PyNum.leb wpm 180 then
    90 + (10 * (1 - Qabs (wpm - 160) / 20))
  else if PyNum.leb 100 wpm && PyNum.leb wpm 200 then
    70 + (20 * (1 - Qabs (wpm - 160) / 40))
  else if PyNum.leb 80 wpm && PyNum.leb wpm 220 then
    50 + (20 * (1 - Qabs (wpm - 160) / 60))
  else PyNum.max 20 (50 - Qabs (wpm - 160) / 4).

Definition filler_words : list string :=
  ["um"; "uh"; "like"; "you know"; "sort of"; "kind of"].

Definition positive_words : list string :=
  ["excited"; "passionate"; "confident"; "experienced"; "skilled"; "accomplished"].

(** [calculate_confidence_score(transcript, duration)] *)
Definition calculate_confidence_score (transcript : string) (duration : Q) : Q :=
  if negb (PyStr.truthy transcript) || PyNum.eqb duration 0 then 30
  else
    let score := 50 in
    let word_count := PyNum.len (PyStr.split transcript) in
    let score :=
      if PyNum.ltb 30 word_count then score + 20
      else if PyNum.ltb 15 word_count then score + 10
      else if PyNum.ltb word_count 5 then score - 20
      else score in
    let filler_count :=
      PyNum.sum (map (fun filler => inject_Z (Z.of_nat (PyStr.count (PyStr.lower transcript) filler)))
                     filler_words) in
    let score :=
      if PyNum.ltb (word_count * (1 # 10)) filler_count then score - 15
      else if PyNum.ltb (word_count * (5 # 100)) filler_count then score - 8
      else score in
    let score :=
      if PyStr.any_in positive_words (PyStr.lower transcript) then score + 10 else score in
    PyNum.max 10 (PyNum.min 100 score).

Definition professional_words : list string :=
  ["experience"; "skills"; "team"; "project"; "challenge"; "solution"; "result"].

Definition enthusiastic_words : list string :=
  ["love"; "passionate"; "excited"; "enjoy"; "amazing"; "great"].

Definition negative_words : list string :=
  ["difficult"; "hard"; "problem"; "can't"; "unable"; "confused"].

(** [calculate_tone_score(transcript)] *)
Definition calculate_tone_score (transcript : string) : Q :=
  if negb (PyStr.truthy transcript) then 40
  else
    let score := 60 in
    let professional_count :=
      PyNum.len (filter (fun word => PyStr.contains word (PyStr.lower transcript) = true)
                        professional_words) in
    let score :=
      if PyNum.ltb 2 professional_count then score + 15
      else if PyNum.ltb 0 professional_count then score + 8
      else score in
    let score :=
      if PyStr.any_in enthusiastic_words (PyStr.lower transcript) then score + 10 else score in
    let score :=
      if PyStr.any_in negative_words (PyStr.lower transcript) then score - 10 else score in
    PyNum.max 20 (PyNum.min 100 score).

(** The phrase appended for the pace score. *)
Definition pace_phrase (pace_score : Q) : list string :=
  if PyNum.ltb 80 pace_score then ["excellent pacing"]
  else if PyNum.ltb 60 pace_score then ["good pacing"]
  else ["work on pacing"].

(** The phrase appended for the confidence score. *)
Definition confidence_phrase (confidence_score : Q) : list string :=
  if PyNum.ltb 75 confidence_score then ["confident delivery"]
  else if PyNum.ltb 60 confidence_score then ["fairly confident"]
  else ["build more confidence"].

(** The phrase appended for the tone score, if any. *)
Definition tone_phrase (tone_score : Q) : list string :=
  if PyNum.ltb 75 tone_score then ["professional tone"]
  else if PyNum.ltb 60 tone_score then ["good tone"]
  else [].

(** [generate_simple_summary(pace_score, confidence_score, tone_score)] *)
Definition generate_simple_summary (pace_score confidence_score tone_score : Q) : string :=
  let summary_parts := [] in
  let summary_parts := summary_parts ++ pace_phrase pace_score in
  let summary_parts := summary_parts ++ confidence_phrase confidence_score in
  let summary_parts := summary_parts ++ tone_phrase tone_score in
  PyStr.join ", " summary_parts +:+ ".".

(** The record returned when the file does not exist. *)
Definition not_found_record (audio_path : string) : Metrics :=
  dict [("error", VStr ("Audio file not found: " +:+ audio_path))].

(** The record returned when the file has size 0. *)
Definition empty_file_record : Metrics :=
  dict [("error", VStr "Audio file is empty")].

(** The record returned by the handler of [analyze_audio_simple]. *)
Definition failure_record (e : exn) : Metrics :=
  dict [("error", VStr ("Simple audio analysis failed: " +:+ exn_msg e));
        ("duration", VNum 0);
        ("words_per_minute", VNum 0);
        ("pace_score", VNum 0);
        ("confidence_score", VNum 0);
        ("tone_score", VNum 0);
        ("analysis_summary", VStr "Audio analysis failed")].

(** The [try] block of [analyze_audio_simple]. *)
Definition analyze_audio_simple_body (w : World) (audio_path transcript : string)
  : outcome Metrics :=
  if negb (path_exists w audio_path) then Return (not_found_record audio_path)
  else
    size ← getsize w audio_path;
    if (size =? 0)%Z then Return empty_file_record
    else
      duration ←
        try_except
          ('(frames, sample_rate) ← wave_read w audio_path;
           true_div (inject_Z frames) (inject_Z sample_rate))
          (fun _ =>
             file_size ← getsize w audio_path;
             Return (inject_Z file_size / 32000));
      let word_count :=
        if PyStr.truthy transcript then PyNum.len (PyStr.split transcript) else 0 in
      let words_per_minute :=
        if PyNum.ltb 0 duration && PyNum.ltb 0 word_count
        then (word_count / duration) * 60
        else 0 in
      let pace_score := calculate_pace_score words_per_minute in
      let confidence_score := calculate_confidence_score transcript duration in
      let tone_score := calculate_tone_score transcript in
      Return (dict [("duration", VNum (PyNum.round duration 2));
                    ("words_per_minute", VNum (PyNum.round words_per_minute 1));
                    ("pace_score", VNum (PyNum.round pace_score 1));
                    ("confidence_score", VNum (PyNum.round confidence_score 1));
                    ("tone_score", VNum (PyNum.round tone_score 1));
                    ("word_count", VNum word_count);
                    ("analysis_summary",
                      VStr (generate_simple_summary pace_score confidence_score tone_score));
                    ("method", VStr "simple_analysis")]).

(** [analyze_audio_simple(audio_path, transcript)] *)
Definition analyze_audio_simple (w : World) (audio_path transcript : string)
  : outcome Metrics :=
  try_except (analyze_audio_simple_body w audio_path transcript)
             (fun e => Return (failure_record e)).

(** ** audio_analyzer.py *)

(** The [try] block of [analyze_audio_metrics]. *)
Definition analyze_audio_metrics_body (lib : Librosa) (w : World) (audio_path : string)
  : outcome Metrics :=
  if negb (path_exists w audio_path) then Return (not_found_record audio_path)
  else
    size ← getsize w audio_path;
    if (size =? 0)%Z then Return empty_file_record
    else
      y ← load lib audio_path;
      analyze_signal lib y.

(** The line printed before falling back. *)
Definition fallback_notice (e : exn) : string :=
  "Librosa audio analysis error: " +:+ exn_msg e +:+ ", falling back to simple analysis".

(** [analyze_audio_metrics(audio_path, transcript)]: the lines printed
    and the result. *)
Definition analyze_audio_metrics (w : World) (audio_path transcript : string)
  : list string * outcome Metrics :=
  match librosa w with
  | None => ([], analyze_audio_simple w audio_path transcript)
  | Some lib =>
      match analyze_audio_metrics_body lib w audio_path with
      | Return m => ([], Return m)
      | Raise e => ([fallback_notice e], analyze_audio_simple w audio_path transcript)
      end
  end.

(** ** adaptive_interviewer.py *)

(** One entry of the interview history, as far as the aggregator reads
    it: the keys ["audio_metrics"] and ["answer"], each possibly absent. *)
Record Turn := {
  audio_metrics : option Metrics;
  answer : option string
}.

(** The lists filled by the loop of [calculate_performance_score]. *)
Record Collected := {
  pace_scores : list value;
  confidence_scores : list value;
  tone_scores : list value;
  content_scores : list Q
}.

(** The score appended to [content_scores] for an answer. *)
Definition content_score (answer : string) : Q :=
  let answer_length :=
    if PyStr.truthy answer then PyNum.len (PyStr.split answer) else 0 in
  if PyNum.ltb 50 answer_length then 85
  else if PyNum.ltb 20 answer_length then 70
  else if PyNum.ltb 5 answer_length then 50
  else 20.

(** The guard [audio_metrics and not audio_metrics.get("error")]. *)
Definition usable (audio_metrics : Metrics) : bool :=
  bool_decide (audio_metrics ≠ ∅) &&
  negb (match audio_metrics !! "error" with
        | Some v => truthy v
        | None => false
        end).

(** One iteration of the loop over the history. *)
Definition collect (acc : Collected) (entry : Turn) : Collected :=
  let audio_metrics := default ∅ (audio_metrics entry) in
  let answer := default "" (answer entry) in
  let acc :=
    if usable audio_metrics then
      {| pace_scores := pace_scores acc ++ [get audio_metrics "pace_score" (VNum 0)];
         confidence_scores :=
           confidence_scores acc ++ [get audio_metrics "confidence_score" (VNum 0)];
         tone_scores := tone_scores acc ++ [get audio_metrics "tone_score" (VNum 0)];
         content_scores := content_scores acc |}
    else acc in
  {| pace_scores := pace_scores acc;
     confidence_scores := confidence_scores acc;
     tone_scores := tone_scores acc;
     content_scores := content_scores acc ++ [content_score answer] |}.

(** [sum(xs) / len(xs) if xs else 50] over stored values. *)
Definition average_or_50 (xs : list value) : outcome Q :=
  match xs with
  | [] => Return 50
  | _ :: _ => total ← sum_values 0 xs; Return (total / PyNum.len xs)
  end.

(** [calculate_performance_score(history)] *)
Definition calculate_performance_score (history : list Turn) : outcome (gmap string Q) :=
  match history with
  | [] => Return (dict [("overall", 0); ("communication", 0); ("technical", 0);
                        ("confidence", 0)])
  | _ :: _ =>
      let acc := fold_left collect history
                   {| pace_scores := []; confidence_scores := []; tone_scores := [];
                      content_scores := [] |} in
      avg_pace ← average_or_50 (pace_scores acc);
      avg_confidence ← average_or_50 (confidence_scores acc);
      avg_tone ← average_or_50 (tone_scores acc);
      let avg_content :=
        match content_scores acc with
        | [] => 50
        | _ :: _ => PyNum.sum (content_scores acc) / PyNum.len (content_scores acc)
        end in
      let communication_score := (avg_pace + avg_confidence + avg_tone) / 3 in
      let technical_score := avg_content in
      let overall_score := communication_score * (4 # 10) + technical_score * (6 # 10) in
      Return (dict [("overall", PyNum.round overall_score 1);
                    ("communication", PyNum.round communication_score 1);
                    ("technical", PyNum.round technical_score 1);
                    ("confidence", PyNum.round avg_confidence 1);
                    ("pace", PyNum.round avg_pace 1);
                    ("tone", PyNum.round avg_tone 1)])
  end.

(** [determine_difficulty_adjustment(performance_scores, current_question_num)] *)
Definition determine_difficulty_adjustment
    (performance_scores : gmap string Q) (current_question_num : Z) : string :=
  let overall := get performance_scores "overall" 50 in
  if (current_question_num <=? 2)%Z then "moderate"
  else if PyNum.ltb 80 overall then "harder"
  else if PyNum.ltb 60 overall then "moderate"
  else if PyNum.ltb 40 overall then "easier"
  else "supportive".

(** [identify_focus_areas(performance_scores, job_title)] *)
Definition identify_focus_areas
    (performance_scores : gmap string Q) (job_title : string) : list string :=
  let focus_areas := [] in
  let focus_areas :=
    if PyNum.ltb (get performance_scores "communication" 50) 60
    then focus_areas ++ ["communication_skills"] else focus_areas in
  let focus_areas :=
    if PyNum.ltb (get performance_scores "confidence" 50) 50
    then focus_areas ++ ["confidence_building"] else focus_areas in
  let focus_areas :=
    if PyNum.ltb (get performance_scores "pace" 50) 40
    then focus_areas ++ ["pacing"] else focus_areas in
  let focus_areas :=
    if PyStr.contains "engineer" (PyStr.lower job_title)
       || PyStr.contains "developer" (PyStr.lower job_title)
    then
      if PyNum.ltb (get performance_scores "technical" 50) 60
      then focus_areas ++ ["technical_depth"] else focus_areas
    else focus_areas in
  let focus_areas :=
    if PyStr.contains "manager" (PyStr.lower job_title)
    then focus_areas ++ ["leadership"] else focus_areas in
  focus_areas.

(** ** The pace ladder as the specification words it *)

(** One band of the ladder: on [lo, hi] the score is
    [base + span * (1 - |wpm - 160| / width)]. *)
Record band := {
  lo : Q; hi : Q; base : Q; span : Q; width : Q
}.

Definition band_matches (wpm : Q) (b : band) : bool :=
  PyNum.leb (lo b) wpm && PyNum.leb wpm (hi b).

Definition band_score (wpm : Q) (b : band) : Q :=
  base b + (span b * (1 - Qabs (wpm - 160) / width b)).

(** The bands in the order the specification lists them. *)
Definition pace_bands : list band :=
  [ {| lo := 140; hi := 180; base := 90; span := 10; width := 20 |};
    {| lo := 100; hi := 200; base := 70; span := 20; width := 40 |};
    {| lo := 80;  hi := 220; base := 50; span := 20; width := 60 |} ].

(** First matching band in list order, [30] at [wpm = 0], and the
    [max(20, ...)] tail when no band matches. *)
Definition pace_ladder_spec (wpm : Q) : Q :=
  if PyNum.eqb wpm 0 then 30
  else match List.find (band_matches wpm) pace_bands with
       | Some b => band_score wpm b
       | None => PyNum.max 20 (50 - Qabs (wpm - 160) / 4)
       end.

(** ** The fallback summary as the specification words it *)

(** One metric's phrases: top, middle and low. *)
Record phrases := { top : string; middle : string; low : string }.

(** Phrase choice "by score thresholds (>80 / >60 else low)". *)
Definition phrase_80_60 (ph : phrases) (score : Q) : string :=
  if PyNum.ltb 80 score then top ph
  else if PyNum.ltb 60 score then middle ph
  else low ph.

(** The summary with the same thresholds for pace, confidence and tone,
    for any table of phrases. *)
Definition summary_80_60 (pace_ph confidence_ph tone_ph : phrases)
    (pace_score confidence_score tone_score : Q) : string :=
  PyStr.join ", " [phrase_80_60 pace_ph pace_score;
                   phrase_80_60 confidence_ph confidence_score;
                   phrase_80_60 tone_ph tone_score] +:+ ".".

(** ** Auxiliary notions for the statements *)

(** [sub] occurs in [s] as a substring, up to the case of the letters
    of [s]. *)
Definition icontains (sub s : string) : Prop :=
  ∃ pre mid post, s = pre +:+ mid +:+ post ∧ PyStr.lower mid = sub.

(** The list [[x]] when [b] holds, the empty list otherwise. *)
Definition when (b : bool) (x : string) : list string := if b then [x] else [].

(** A resource error at the signal extractor: the path is missing, the
    file is empty, or decoding the waveform raises. *)
Definition resource_error (w : World) (audio_path : string) : Prop :=
  path_exists w audio_path = false ∨
  getsize w audio_path = Return 0%Z ∨
  ∃ lib e, librosa w = Some lib ∧ load lib audio_path = Raise e.

(** A record that carries nothing but an error message. *)
Definition bare_error_record (m : Metrics) : Prop := dom m = {["error"]}.

(** ** The aggregator's loop as list comprehensions *)

(** [[m.get(key, 0) for m in metrics of history if m and not m.get("error")]] *)
Definition audio_column (key : string) (history : list Turn) : list value :=
  flat_map (fun entry =>
              let m := default ∅ (audio_metrics entry) in
              if usable m then [get m key (VNum 0)] else [])
           history.

(** The content score of every turn. *)
Definition content_column (history : list Turn) : list Q :=
  map (fun entry => content_score (default "" (answer entry))) history.

(** The score reported under [key], if the aggregator returns. *)
Definition reported (history : list Turn) (key : string) : outcome (option Q) :=
  d ← calculate_performance_score history; Return (d !! key).

(** The keys of a full score record. *)
Definition six_keys : list string :=
  ["overall"; "communication"; "technical"; "confidence"; "pace"; "tone"].

(** The keys of the record returned for an empty history. *)
Definition four_keys : list string :=
  ["overall"; "communication"; "technical"; "confidence"].

(** The per-turn score fields the aggregator reads. *)
Definition score_keys : list string := ["pace_score"; "confidence_score"; "tone_score"].

(** A stored score is a number. *)
Definition numeric (v : value) : bool :=
  match v with VNum _ => true | VStr _ => false end.

(** A stored score is a number of [0,100]. *)
Definition in_range (v : value) : bool :=
  match v with
  | VNum q => PyNum.leb 0 q && PyNum.leb q 100
  | VStr _ => false
  end.

(** The score fields present in a metrics record satisfy [P]. *)
Definition metrics_ok (P : value → bool) (m : Metrics) : bool :=
  forallb (fun k => match m !! k with Some v => P v | None => true end) score_keys.

(** The metrics the aggregator uses from this turn, if any, satisfy [P]. *)
Definition turn_ok (P : value → bool) (entry : Turn) : bool :=
  let m := default ∅ (audio_metrics entry) in
  if usable m then metrics_ok P m else true.

(** Every turn of the history satisfies [turn_ok P]. *)
Definition history_ok (P : value → bool) (history : list Turn) : Prop :=
  Forall (fun entry => turn_ok P entry = true) history.

(** ** Sample environments and histories *)

(** A waveform library whose decoder rejects every file. *)
Definition lib_undecodable : Librosa :=
  {| Signal := unit;
     load := fun _ => Raise (Exn "NoBackendError" "no backend could decode the file");
     analyze_signal := fun _ => Return ∅ |}.

(** The library is there, no file is. *)
Definition world_missing : World :=
  {| librosa := Some lib_undecodable;
     path_exists := fun _ => false;
     getsize := fun _ => Raise (Exn "FileNotFoundError" "No such file or directory");
     wave_read := fun _ => Raise (Exn "FileNotFoundError" "No such file or directory") |}.

(** The library is there, every file is empty. *)
Definition world_empty : World :=
  {| librosa := Some lib_undecodable;
     path_exists := fun _ => true;
     getsize := fun _ => Return 0%Z;
     wave_read := fun _ => Raise (Exn "EOFError" "") |}.

(** Files of 64000 bytes that neither the library nor [wave] can read. *)
Definition world_undecodable : World :=
  {| librosa := Some lib_undecodable;
     path_exists := fun _ => true;
     getsize := fun _ => Return 64000%Z;
     wave_read := fun _ => Raise (Exn "Error" "file does not start with RIFF id") |}.

(** Files that exist but whose size cannot be read. *)
Definition world_unreadable : World :=
  {| librosa := None;
     path_exists := fun _ => true;
     getsize := fun _ => Raise (Exn "PermissionError" "Permission denied");
     wave_read := fun _ => Raise (Exn "PermissionError" "Permission denied") |}.

(** A turn whose extraction failed. *)
Definition turn_error : Turn :=
  {| audio_metrics := Some (failure_record (Exn "PermissionError" "Permission denied"));
     answer := Some "" |}.

(** A turn whose metrics carry an error field with an empty message. *)
Definition turn_blank_error : Turn :=
  {| audio_metrics :=
       Some (dict [("error", VStr ""); ("pace_score", VNum 0);
                   ("confidence_score", VNum 0); ("tone_score", VNum 0)]);
     answer := Some "" |}.

(** A valid turn with pace score 80. *)
Definition turn_valid_80 : Turn :=
  {| audio_metrics :=
       Some (dict [("pace_score", VNum 80); ("confidence_score", VNum 70);
                   ("tone_score", VNum 60)]);
     answer := Some "I led the team through a difficult migration project" |}.

(** ** audio_analyzer.py: scoring of the extracted features *)


(** Line 67: [volume_consistency] from the mean and the deviation of the
    energy. *)
Definition volume_consistency (volume_mean volume_std : Q) : Q :=
  1 / (1 + volume_std / (volume_mean + (1 # 100))).

(** Line 92: [pace_score] of the full analysis. *)
Definition signal_pace_score (words_per_minute : Q) : Q :=
  PyNum.min 100 (PyNum.max 0 ((words_per_minute / 150) * 100)).

(** Line 93: [confidence_score] of the full analysis. *)
Definition signal_confidence_score (volume_consistency : Q) : Q :=
  PyNum.min 100 (volume_consistency * 100).

(** Lines 96-97: [tone_score] of the full analysis. *)
Definition signal_tone_score (pitch_variation : Q) : Q :=
  let optimal_variation := 50 in
  PyNum.max 0 (100 - Qabs (pitch_variation - optimal_variation) * 2).

(** [generate_analysis_summary(pace_score, confidence_score, tone_score,
    pause_ratio)] *)
Definition generate_analysis_summary
    (pace_score confidence_score tone_score pause_ratio : Q) : string :=
  let summary_parts := [] in
  let summary_parts :=
    if PyNum.ltb 80 pace_score then summary_parts ++ ["Great speaking pace"]
    else if PyNum.ltb 60 pace_score then summary_parts ++ ["Good speaking pace"]
    else if PyNum.ltb 40 pace_score
      then summary_parts ++ ["Consider adjusting your speaking speed"]
    else summary_parts ++ ["Speaking pace needs improvement"] in
  let summary_parts :=
    if PyNum.ltb 80 confidence_score then summary_parts ++ ["confident delivery"]
    else if PyNum.ltb 60 confidence_score then summary_parts ++ ["fairly confident"]
    else summary_parts ++ ["work on speaking with more confidence"] in
  let summary_parts :=
    if PyNum.ltb (3 # 10) pause_ratio then summary_parts ++ ["reduce excessive pauses"]
    else if PyNum.ltb pause_ratio (5 # 100)
      then summary_parts ++ ["add strategic pauses for clarity"]
    else summary_parts in
  PyStr.join ", " summary_parts +:+ ".".

(** ** adaptive_interviewer.py: the interviewer and its prompt context *)

(** The keyword arguments an [Agent] is built from. *)
Record Agent := {
  role : string;
  goal : string;
  backstory : string;
  verbose : bool;
  allow_delegation : bool;
  llm : string
}.

(** [tag in focus_areas] *)
Definition list_in (tag : string) (focus_areas : list string) : bool :=
  bool_decide (tag ∈ focus_areas).

(** [create_adaptive_interviewer(job_title, performance_scores,
    question_number, focus_areas)] *)
Definition create_adaptive_interviewer
    (job_title : string) (performance_scores : gmap string Q)
    (question_number : Z) (focus_areas : list string) : Agent :=
  let difficulty := determine_difficulty_adjustment performance_scores question_number in
  let backstory_parts := ["You are interviewing for " +:+ job_title +:+ "."] in
  let backstory_parts :=
    if String.eqb difficulty "harder" then
      backstory_parts ++ ["The candidate is performing excellently. Challenge them with more complex scenarios and deeper technical questions."]
    else if String.eqb difficulty "easier" then
      backstory_parts ++ ["The candidate is struggling. Ask more straightforward questions and provide gentle guidance."]
    else if String.eqb difficulty "supportive" then
      backstory_parts ++ ["The candidate needs encouragement. Ask confidence-building questions and be supportive."]
    else
      backstory_parts ++ ["The candidate is performing well. Continue with balanced questions."] in
  let backstory_parts :=
    if list_in "communication_skills" focus_areas
    then backstory_parts ++ ["Focus on questions that help them practice clear communication."]
    else backstory_parts in
  let backstory_parts :=
    if list_in "confidence_building" focus_areas
    then backstory_parts ++ ["Ask questions that allow them to showcase their strengths."]
    else backstory_parts in
  let backstory_parts :=
    if list_in "technical_depth" focus_areas
    then backstory_parts ++ ["Include more technical scenarios and problem-solving questions."]
    else backstory_parts in
  let backstory_parts :=
    if list_in "leadership" focus_areas
    then backstory_parts ++ ["Focus on leadership scenarios and people management questions."]
    else backstory_parts in
  let backstory := PyStr.join " " backstory_parts in
  {| role := "Adaptive Interviewer";
     goal := "Conduct an adaptive interview for " +:+ job_title
             +:+ ", adjusting to candidate performance";
     backstory := backstory;
     verbose := false;
     allow_delegation := false;
     llm := "gpt-4" |}.

(** [get_adaptive_question_context(performance_scores, focus_areas)] *)
Definition get_adaptive_question_context
    (performance_scores : gmap string Q) (focus_areas : list string) : string :=
  let context_parts := [] in
  let overall_score := get performance_scores "overall" 50 in
  let context_parts :=
    if PyNum.ltb 75 overall_score
    then context_parts ++ ["The candidate is performing very well."]
    else if PyNum.ltb 50 overall_score
    then context_parts ++ ["The candidate is performing adequately."]
    else context_parts ++ ["The candidate needs more support."] in
  let comm_score := get performance_scores "communication" 50 in
  let context_parts :=
    if PyNum.ltb comm_score 50
    then context_parts ++ ["Their communication could be clearer."]
    else if PyNum.ltb 80 comm_score
    then context_parts ++ ["They communicate very effectively."]
    else context_parts in
  let context_parts :=
    match focus_areas with
    | _ :: _ => context_parts ++ ["Focus on: " +:+ PyStr.join ", " focus_areas +:+ "."]
    | [] => context_parts
    end in
  PyStr.join " " context_parts.

(** ** tasks.py: the question task *)

(** One entry of the interview history as the task builders read it: the
    key ["question"], possibly absent, beside the keys of [Turn]. *)
Record Interaction := {
  question : option string;
  turn : Turn
}.

(** The keyword arguments a [Task] is built from. *)
Record Task := {
  description : string;
  expected_output : string;
  agent : Agent
}.

(** [d[key]] on a key that may be absent. *)
Definition subscript {A} (key : string) (item : option A) : outcome A :=
  match item with
  | Some v => Return v
  | None => Raise (Exn "KeyError" ("'" +:+ key +:+ "'"))
  end.

(** The line feed character as a string. *)
Definition newline : string := String "010"%char "".

(** The list built by the comprehension over [enumerate(interview_history)],
    from index [i] on. *)
Fixpoint conversation_lines (i : nat) (interview_history : list Interaction)
  : outcome (list string) :=
  match interview_history with
  | [] => Return []
  | interaction :: rest =>
      q ← subscript "question" (question interaction);
      a ← subscript "answer" (answer (turn interaction));
      lines ← conversation_lines (S i) rest;
      Return (("Q" +:+ pretty (i + 1)%nat +:+ ": " +:+ q +:+ newline
               +:+ "A" +:+ pretty (i + 1)%nat +:+ ": " +:+ a) :: lines)
  end.

(** The closing paragraph for the first question. *)
Definition first_question_instruction : string :=
  "

        This is the first question. Ask about their motivation, background, and interest in this specific role.
        Generate a single clear, focused question that helps evaluate the candidate.
        Return ONLY the question text, nothing else.".

(** The closing paragraph for every later question. *)
Definition later_question_instruction : string :=
  "

        Based on the performance analysis above, adapt your questioning approach:
        - If they're performing well, challenge them with more complex scenarios
        - If they're struggling, ask supportive questions that build confidence
        - Focus on identified weak areas while maintaining interview flow

        Generate a single clear, focused question that helps evaluate the candidate.
        Return ONLY the question text, nothing else.".

(** [create_question_task(job_title, interviewer, question_number,
    interview_history)] *)
Definition create_question_task
    (job_title : string) (interviewer : Agent) (question_number : Z)
    (interview_history : list Interaction) : outcome Task :=
  context ←
    match interview_history with
    | _ :: _ =>
        lines ← conversation_lines 0 interview_history;
        Return (PyStr.join newline lines)
    | [] => Return "No previous responses"
    end;
  adaptive_context ←
    (if (0 <? length interview_history)%nat then
       performance_scores ← calculate_performance_score (map turn interview_history);
       let focus_areas := identify_focus_areas performance_scores job_title in
       Return (newline +:+ newline +:+ "Performance Analysis:" +:+ newline
               +:+ get_adaptive_question_context performance_scores focus_areas)
     else Return "");
  let base_instruction :=
    "You are conducting interview question #" +:+ pretty question_number +:+ " for the "
    +:+ job_title +:+ " position.

        Previous conversation context:
        "
    +:+ context +:+ adaptive_context in
  let instruction :=
    if (question_number =? 1)%Z
    then base_instruction +:+ first_question_instruction
    else base_instruction +:+ later_question_instruction in
  Return {| description := instruction;
            expected_output :=
              "A clear, relevant interview question adapted to candidate performance and needs.";
            agent := interviewer |}.

(** ** Reading numbers off records *)

(** The score record [d] holds, under [key], a number equal to [q]. *)
Definition reports (d : gmap string Q) (key : string) (q : Q) : Prop :=
  ∃ x, d !! key = Some x ∧ x == q.

(** The metrics record [m] holds, under [key], a number equal to [q]. *)
Definition stores (m : Metrics) (key : string) (q : Q) : Prop :=
  ∃ x, m !! key = Some (VNum x) ∧ x == q.



(** ** agents.py *)

Definition DEFAULT_INTERVIEWER_MODEL : string := "gpt-4".

(** [create_interviewer(job_title, model)] *)
Definition create_interviewer (job_title : string) (model : option string) : Agent :=
  let chosen_model :=
    match model with
    | Some m => if PyStr.truthy m then m else DEFAULT_INTERVIEWER_MODEL
    | None => DEFAULT_INTERVIEWER_MODEL
    end in
  {| role := "Interviewer";
     goal := "Conduct an interview for the role: " +:+ job_title
             +:+ ". Ask good questions and evaluate responses.";
     backstory := "You are interviewing candidates for the job: " +:+ job_title
                  +:+ ". Ask clear and relevant interview questions and evaluate answers.";
     verbose := false;
     allow_delegation := false;
     llm := chosen_model |}.


(** A recorded exchange with usable metrics. *)
Definition interaction_valid_80 : Interaction :=
  {| question := Some "Why do you want this role?"; turn := turn_valid_80 |}.

(** The text of the question task up to the conversation context. *)
Definition question_preamble (job_title : string) (question_number : Z) : string :=
  "You are conducting interview question #" +:+ pretty question_number +:+ " for the "
  +:+ job_title +:+ " position.

        Previous conversation context:
        ".



(** * Properties *)

(** ** Comparisons *)

Lemma ltb_lt x y : PyNum.ltb x y = true ↔ x < y.
Proof.
  unfold PyNum.ltb. destruct (Qcompare_spec x y) as [H|H|H]; split; intros H'; try done.
  - rewrite H in H'. by apply Qlt_irrefl in H'.
  - exfalso. apply (Qlt_irrefl x). by apply Qlt_trans with y.
Qed.

Lemma ltb_ge x y : PyNum.ltb x y = false ↔ y <= x.
Proof.
  unfold PyNum.ltb. destruct (Qcompare_spec x y) as [H|H|H]; split; intros H'; try done.
  - rewrite H. apply Qle_refl.
  - exfalso. by apply (Qlt_not_le x y).
  - by apply Qlt_le_weak.
Qed.

Lemma leb_le x y : PyNum.leb x y = true ↔ x <= y.
Proof.
  unfold PyNum.leb. destruct (Qcompare_spec x y) as [H|H|H]; split; intros H'; try done.
  - rewrite H. apply Qle_refl.
  - by apply Qlt_le_weak.
  - exfalso. by apply (Qlt_not_le y x).
Qed.

Lemma leb_gt x y : PyNum.leb x y = false ↔ y < x.
Proof.
  unfold PyNum.leb. destruct (Qcompare_spec x y) as [H|H|H]; split; intros H'; try done.
  - rewrite H in H'. by apply Qlt_irrefl in H'.
  - exfalso. apply (Qlt_irrefl x). by apply Qlt_trans with y.
Qed.

Lemma eqb_eq x y : PyNum.eqb x y = true ↔ x == y.
Proof.
  unfold PyNum.eqb. destruct (Qcompare_spec x y) as [H|H|H]; split; intros H'; try done.
  - rewrite H' in H. by apply Qlt_irrefl in H.
  - rewrite H' in H. by apply Qlt_irrefl in H.
Qed.

Lemma eqb_neq x y : PyNum.eqb x y = false ↔ ¬ x == y.
Proof.
  rewrite <- eqb_eq. destruct (PyNum.eqb x y); split; try done.
Qed.

(** Case analysis on the comparisons of a goal or of the context,
    leaving the order facts as hypotheses. *)
Ltac case_cmp :=
  repeat match goal with
    | |- context [PyNum.ltb ?a ?b] =>
        let E := fresh "Hcmp" in
        destruct (PyNum.ltb a b) eqn:E;
        [apply ltb_lt in E | apply ltb_ge in E]
    | |- context [PyNum.leb ?a ?b] =>
        let E := fresh "Hcmp" in
        destruct (PyNum.leb a b) eqn:E;
        [apply leb_le in E | apply leb_gt in E]
    | |- context [PyNum.eqb ?a ?b] =>
        let E := fresh "Hcmp" in
        destruct (PyNum.eqb a b) eqn:E;
        [apply eqb_eq in E | apply eqb_neq in E]
    end.

(** Linear arithmetic over the rationals, with divisions by constants
    turned into multiplications. *)
Ltac qlra := unfold Qdiv in *; cbn [Qinv Qnum Qden] in *; lra.

(** ** The fallback pace ladder *)

Lemma calculate_pace_score_ladder wpm : calculate_pace_score wpm = pace_ladder_spec wpm.
Proof.
  unfold calculate_pace_score, pace_ladder_spec.
  destruct (PyNum.eqb wpm 0); [reflexivity|].
  unfold pace_bands, band_matches, List.find; cbv [lo hi].
  destruct (PyNum.leb 140 wpm && PyNum.leb wpm 180); [reflexivity|].
  destruct (PyNum.leb 100 wpm && PyNum.leb wpm 200); [reflexivity|].
  destruct (PyNum.leb 80 wpm && PyNum.leb wpm 220); reflexivity.
Qed.

Lemma Qabs_cases x : 0 <= Qabs x ∧ (Qabs x == x ∨ Qabs x == - x).
Proof.
  split; [apply Qabs_nonneg|].
  destruct (Qlt_le_dec x 0) as [H|H].
  - right. apply Qabs_neg. by apply Qlt_le_weak.
  - left. by apply Qabs_pos.
Qed.

Lemma calculate_pace_score_bounds wpm :
  20 <= calculate_pace_score wpm ∧ calculate_pace_score wpm <= 100.
Proof.
  unfold calculate_pace_score, PyNum.max.
  destruct (Qabs_cases (wpm - 160)) as [Hn Ha].
  revert Hn Ha. generalize (Qabs (wpm - 160)). intros a Hn Ha.
  case_cmp; cbn [andb]; case_cmp; destruct Ha; split; qlra.
Qed.

(** C8. The fallback pace ladder is the first-match evaluation of its
    overlapping bands in the listed order, returns exactly 30 at
    wpm = 0, and returns exactly 100 at wpm = 160, the peak of the
    [140,180] band. *)
Theorem calculate_pace_score_first_match :
  (∀ wpm, calculate_pace_score wpm = pace_ladder_spec wpm) ∧
  calculate_pace_score 0 == 30 ∧
  calculate_pace_score 160 == 100.
Proof.
  split; [apply calculate_pace_score_ladder|]. split; reflexivity.
Qed.

(** C10. For every wpm >= 0 the fallback pace score lies in [20,100]. *)
Theorem calculate_pace_score_range (wpm : Q) :
  0 <= wpm → 20 <= calculate_pace_score wpm ∧ calculate_pace_score wpm <= 100.
Proof. intros _. apply calculate_pace_score_bounds. Qed.

Lemma calculate_pace_score_range_witness :
  0 <= 160 ∧ 20 <= calculate_pace_score 160 ∧ calculate_pace_score 160 <= 100.
Proof.
  split; [discriminate|]. apply (calculate_pace_score_range 160). discriminate.
Defined.

(** ** Strings *)

Lemma append_cons a s t : String a s +:+ t = String a (s +:+ t).
Proof. reflexivity. Qed.

Lemma startswith_spec p s : PyStr.startswith p s = true ↔ ∃ post, s = p +:+ post.
Proof.
  revert s. induction p as [|a p IH]; intros s.
  - split; [intros _; by exists s | done].
  - destruct s as [|b s]; cbn.
    + split; [done | intros [post H]; discriminate].
    + destruct (Stdlib.Strings.Ascii.eqb_spec a b) as [->|Hne].
      * rewrite IH. split; intros [post H]; exists post.
        -- by rewrite H.
        -- rewrite append_cons in H. by injection H.
      * split; [done | intros [post H]; rewrite append_cons in H; injection H; intros; congruence].
Qed.

Lemma contains_spec sub s :
  PyStr.contains sub s = true ↔ ∃ pre post, s = pre +:+ sub +:+ post.
Proof.
  induction s as [|c s IH].
  - cbn. rewrite orb_false_r, startswith_spec. split.
    + intros [post H]. by exists "", post.
    + intros ([|x pre] & post & H); [by exists post | discriminate].
  - cbn [PyStr.contains]. rewrite orb_true_iff, startswith_spec, IH. split.
    + intros [[post H] | (pre & post & H)].
      * by exists "", post.
      * exists (String c pre), post. by rewrite H.
    + intros ([|x pre] & post & H).
      * left. by exists post.
      * right. exists pre, post. rewrite append_cons in H. by injection H.
Qed.

Lemma lower_append a b : PyStr.lower (a +:+ b) = PyStr.lower a +:+ PyStr.lower b.
Proof. induction a as [|x a IH]; [done|]. rewrite !append_cons. cbn. by rewrite IH. Qed.

Lemma lower_append_inv s a b :
  PyStr.lower s = a +:+ b →
  ∃ s1 s2, s = s1 +:+ s2 ∧ PyStr.lower s1 = a ∧ PyStr.lower s2 = b.
Proof.
  revert s. induction a as [|x a IH]; intros s H.
  - by exists "", s.
  - destruct s as [|c s]; [discriminate|].
    rewrite append_cons in H. cbn in H. injection H as Hc Hs.
    destruct (IH s Hs) as (s1 & s2 & -> & H1 & H2).
    exists (String c s1), s2. cbn. by rewrite Hc, H1.
Qed.

Lemma contains_lower sub s :
  PyStr.contains sub (PyStr.lower s) = true ↔ icontains sub s.
Proof.
  rewrite contains_spec. unfold icontains. split.
  - intros (pre' & post' & H).
    apply lower_append_inv in H as (pre & rest & -> & Hpre & H).
    apply lower_append_inv in H as (mid & post & -> & Hmid & Hpost).
    by exists pre, mid, post.
  - intros (pre & mid & post & -> & Hmid).
    exists (PyStr.lower pre), (PyStr.lower post).
    by rewrite !lower_append, Hmid.
Qed.

(** ** The adaptive controller *)

Lemma elem_of_when x b y : x ∈ when b y ↔ b = true ∧ x = y.
Proof.
  destruct b; cbn.
  - rewrite list_elem_of_singleton. naive_solver.
  - rewrite elem_of_nil. naive_solver.
Qed.

Lemma identify_focus_areas_when scores job_title :
  identify_focus_areas scores job_title =
    when (PyNum.ltb (get scores "communication" 50) 60) "communication_skills" ++
    when (PyNum.ltb (get scores "confidence" 50) 50) "confidence_building" ++
    when (PyNum.ltb (get scores "pace" 50) 40) "pacing" ++
    when ((PyStr.contains "engineer" (PyStr.lower job_title)
           || PyStr.contains "developer" (PyStr.lower job_title))
          && PyNum.ltb (get scores "technical" 50) 60) "technical_depth" ++
    when (PyStr.contains "manager" (PyStr.lower job_title)) "leadership".
Proof.
  unfold identify_focus_areas.
  destruct (PyNum.ltb (get scores "communication" 50) 60),
           (PyNum.ltb (get scores "confidence" 50) 50),
           (PyNum.ltb (get scores "pace" 50) 40),
           (PyStr.contains "engineer" (PyStr.lower job_title)),
           (PyStr.contains "developer" (PyStr.lower job_title)),
           (PyNum.ltb (get scores "technical" 50) 60),
           (PyStr.contains "manager" (PyStr.lower job_title)); reflexivity.
Qed.

(** C5. The difficulty decision is [moderate] whenever the 1-based
    question index is at most 2, whatever the scores; past the second
    question it is [harder] for overall > 80, [moderate] for overall > 60,
    [easier] for overall > 40 and [supportive] otherwise, where overall is
    the stored ["overall"] score (50 when the key is absent).  At question
    index 3: 85 gives harder, 65 moderate, 45 easier, 20 supportive. *)
Theorem determine_difficulty_adjustment_spec (scores : gmap string Q) (n : Z) :
  let overall := get scores "overall" 50 in
  ((n ≤ 2)%Z → determine_difficulty_adjustment scores n = "moderate") ∧
  ((2 < n)%Z → 80 < overall → determine_difficulty_adjustment scores n = "harder") ∧
  ((2 < n)%Z → 60 < overall → overall <= 80 →
     determine_difficulty_adjustment scores n = "moderate") ∧
  ((2 < n)%Z → 40 < overall → overall <= 60 →
     determine_difficulty_adjustment scores n = "easier") ∧
  ((2 < n)%Z → overall <= 40 → determine_difficulty_adjustment scores n = "supportive") ∧
  determine_difficulty_adjustment (dict [("overall", 85)]) 3 = "harder" ∧
  determine_difficulty_adjustment (dict [("overall", 65)]) 3 = "moderate" ∧
  determine_difficulty_adjustment (dict [("overall", 45)]) 3 = "easier" ∧
  determine_difficulty_adjustment (dict [("overall", 20)]) 3 = "supportive".
Proof.
  intros overall. unfold determine_difficulty_adjustment. fold overall.
  repeat split; try reflexivity; intros Hn;
    (destruct (Z.leb_spec n 2) as [Hle|Hgt]; [try done; lia | try lia]);
    intros; case_cmp; try done; exfalso; lra.
Qed.

Lemma determine_difficulty_adjustment_spec_witness :
  determine_difficulty_adjustment (dict [("overall", 95)]) 2 = "moderate" ∧
  determine_difficulty_adjustment (dict [("communication", 70)]) 4 = "easier".
Proof.
  split.
  - destruct (determine_difficulty_adjustment_spec (dict [("overall", 95)]) 2) as (H & _).
    apply H. lia.
  - destruct (determine_difficulty_adjustment_spec (dict [("communication", 70)]) 4)
      as (_ & _ & _ & H & _).
    apply H; [lia | reflexivity | discriminate].
Defined.

(** C6. The focus areas contain [communication_skills] iff
    communication < 60, [confidence_building] iff confidence < 50,
    [pacing] iff pace < 40, [technical_depth] iff technical < 60 and the
    job title contains "engineer" or "developer" up to case, and
    [leadership] iff the job title contains "manager" up to case, whatever
    the scores (a score whose key is absent counts as 50).  "Senior
    Engineer" with communication 55 and technical 55 yields both
    [communication_skills] and [technical_depth]; "Sales Manager" with all
    scores 90 still yields [leadership]. *)
Theorem identify_focus_areas_spec (scores : gmap string Q) (job_title : string) :
  let areas := identify_focus_areas scores job_title in
  ("communication_skills" ∈ areas ↔ get scores "communication" 50 < 60) ∧
  ("confidence_building" ∈ areas ↔ get scores "confidence" 50 < 50) ∧
  ("pacing" ∈ areas ↔ get scores "pace" 50 < 40) ∧
  ("technical_depth" ∈ areas ↔
     get scores "technical" 50 < 60 ∧
     (icontains "engineer" job_title ∨ icontains "developer" job_title)) ∧
  ("leadership" ∈ areas ↔ icontains "manager" job_title) ∧
  identify_focus_areas (dict [("communication", 55); ("technical", 55)]) "Senior Engineer"
    = ["communication_skills"; "technical_depth"] ∧
  identify_focus_areas
    (dict [("overall", 90); ("communication", 90); ("technical", 90);
           ("confidence", 90); ("pace", 90); ("tone", 90)]) "Sales Manager"
    = ["leadership"].
Proof.
  intros areas. unfold areas. rewrite identify_focus_areas_when.
  split_and!; try reflexivity;
    rewrite !elem_of_app, !elem_of_when, ?andb_true_iff, ?orb_true_iff,
            ?ltb_lt, ?contains_lower.
  all: naive_solver.
Qed.

(** ** The fallback summary *)

(** C9 (as stated, refuted).  No table of phrases makes the summary a
    choice by the thresholds > 80 and > 60 for all three metrics: a
    confidence score of 78 already selects the top confidence phrase,
    which the score 70 does not, and a tone score of 50 contributes no
    phrase. *)
Lemma generate_simple_summary_not_80_60 :
  generate_simple_summary 50 78 50 = "work on pacing, confident delivery." ∧
  generate_simple_summary 50 70 50 = "work on pacing, fairly confident." ∧
  ¬ ∃ pace_ph confidence_ph tone_ph, ∀ p c t,
      generate_simple_summary p c t = summary_80_60 pace_ph confidence_ph tone_ph p c t.
Proof.
  split; [reflexivity|]. split; [reflexivity|].
  intros (pace_ph & confidence_ph & tone_ph & H).
  pose proof (H 50 78 50) as H78. pose proof (H 50 70 50) as H70.
  assert (summary_80_60 pace_ph confidence_ph tone_ph 50 78 50
          = summary_80_60 pace_ph confidence_ph tone_ph 50 70 50) as Heq by reflexivity.
  rewrite <- H78, <- H70 in Heq. discriminate Heq.
Qed.

(** C9 (amended).  The summary joins, in this order, one pace phrase
    chosen by > 80 / > 60 / otherwise, one confidence phrase chosen by
    > 75 / > 60 / otherwise, and a tone phrase chosen by > 75 / > 60,
    with no tone phrase at 60 or below. *)
Theorem generate_simple_summary_phrases (p c t : Q) :
  ∃ P C T,
    generate_simple_summary p c t = PyStr.join ", " (P ++ C ++ T) +:+ "." ∧
    ((80 < p ∧ P = ["excellent pacing"]) ∨
     (60 < p ∧ p <= 80 ∧ P = ["good pacing"]) ∨
     (p <= 60 ∧ P = ["work on pacing"])) ∧
    ((75 < c ∧ C = ["confident delivery"]) ∨
     (60 < c ∧ c <= 75 ∧ C = ["fairly confident"]) ∨
     (c <= 60 ∧ C = ["build more confidence"])) ∧
    ((75 < t ∧ T = ["professional tone"]) ∨
     (60 < t ∧ t <= 75 ∧ T = ["good tone"]) ∨
     (t <= 60 ∧ T = [])).
Proof.
  exists (pace_phrase p), (confidence_phrase c), (tone_phrase t).
  split; [by rewrite app_assoc|].
  unfold pace_phrase, confidence_phrase, tone_phrase.
  split_and!; case_cmp; naive_solver.
Qed.

(** ** The heuristic fallback extractor *)

Lemma try_except_returns {A} (body : outcome A) (handler : exn → A) :
  ∃ a, try_except body (fun e => Return (handler e)) = Return a.
Proof. destruct body as [a|e]; cbn; eauto. Qed.


(** C7. The fallback extractor never raises: for every environment,
    path and transcript it returns a record; and whenever its [try]
    block fails with an exception, the record returned has the error
    field set, duration, words per minute and the three scores equal to
    0, and the summary "Audio analysis failed". *)
Theorem analyze_audio_simple_never_raises (w : World) (audio_path transcript : string) :
  (∃ d, analyze_audio_simple w audio_path transcript = Return d) ∧
  (∀ e, analyze_audio_simple_body w audio_path transcript = Raise e →
     analyze_audio_simple w audio_path transcript = Return (failure_record e) ∧
     failure_record e !! "error"
       = Some (VStr ("Simple audio analysis failed: " +:+ exn_msg e)) ∧
     failure_record e !! "pace_score" = Some (VNum 0) ∧
     failure_record e !! "confidence_score" = Some (VNum 0) ∧
     failure_record e !! "tone_score" = Some (VNum 0) ∧
     failure_record e !! "duration" = Some (VNum 0) ∧
     failure_record e !! "words_per_minute" = Some (VNum 0) ∧
     failure_record e !! "analysis_summary" = Some (VStr "Audio analysis failed")).
Proof.
  split; [apply try_except_returns|].
  intros e He. unfold analyze_audio_simple. rewrite He.
  split_and!; reflexivity.
Qed.

Lemma analyze_audio_simple_never_raises_witness :
  analyze_audio_simple_body world_unreadable "answer.wav" "I am excited"
    = Raise (Exn "PermissionError" "Permission denied") ∧
  analyze_audio_simple world_unreadable "answer.wav" "I am excited"
    = Return (failure_record (Exn "PermissionError" "Permission denied")).
Proof.
  split; [reflexivity|].
  apply (analyze_audio_simple_never_raises world_unreadable "answer.wav" "I am excited").
  reflexivity.
Defined.

(** ** The signal extractor entry point *)

Lemma dom_not_found_record audio_path : bare_error_record (not_found_record audio_path).
Proof.
  unfold bare_error_record, not_found_record, dict. cbn.
  rewrite dom_insert_L, dom_empty_L. set_solver.
Qed.

Lemma dom_empty_file_record : bare_error_record empty_file_record.
Proof.
  unfold bare_error_record, empty_file_record, dict. cbn.
  rewrite dom_insert_L, dom_empty_L. set_solver.
Qed.

(** C1 (as stated, refuted).  With the waveform library available and
    the file missing, the entry point prints no fallback notice and hands
    the caller a record that carries only the error message; the same
    happens for an empty file.  So a resource error does reach the caller
    as a bare error record. *)
Lemma analyze_audio_metrics_missing_file_error :
  HAS_LIBROSA world_missing = true ∧
  resource_error world_missing "missing.wav" ∧
  analyze_audio_metrics world_missing "missing.wav" "hello"
    = ([], Return (not_found_record "missing.wav")) ∧
  not_found_record "missing.wav" !! "error"
    = Some (VStr "Audio file not found: missing.wav") ∧
  analyze_audio_metrics world_empty "empty.wav" "hello" = ([], Return empty_file_record) ∧
  ¬ (∀ w audio_path transcript out m,
       resource_error w audio_path →
       analyze_audio_metrics w audio_path transcript = (out, Return m) →
       ¬ bare_error_record m).
Proof.
  split_and!; try reflexivity.
  - by left.
  - intros H.
    apply (H world_missing "missing.wav" "hello" [] (not_found_record "missing.wav")).
    + by left.
    + reflexivity.
    + apply dom_not_found_record.
Qed.

(** C1 (amended).  When the waveform library is unavailable, and
    whenever the [try] block of the entry point raises, in particular on
    every waveform decode failure of an existing non-empty file, the
    entry point returns the result of the fallback extractor (after
    printing the fallback notice in the second case).  For a missing path
    or an empty file with the library available it returns the bare error
    record itself, without the fallback notice; that record is also what
    the fallback extractor returns for the same input. *)
Theorem analyze_audio_metrics_fallback (w : World) (audio_path transcript : string) :
  (librosa w = None →
     analyze_audio_metrics w audio_path transcript
       = ([], analyze_audio_simple w audio_path transcript)) ∧
  (∀ lib, librosa w = Some lib →
     (∀ e, analyze_audio_metrics_body lib w audio_path = Raise e →
        analyze_audio_metrics w audio_path transcript
          = ([fallback_notice e], analyze_audio_simple w audio_path transcript)) ∧
     (∀ e size, path_exists w audio_path = true →
        getsize w audio_path = Return size → size ≠ 0%Z →
        load lib audio_path = Raise e →
        analyze_audio_metrics w audio_path transcript
          = ([fallback_notice e], analyze_audio_simple w audio_path transcript)) ∧
     (path_exists w audio_path = false →
        analyze_audio_metrics w audio_path transcript
          = ([], Return (not_found_record audio_path)) ∧
        analyze_audio_simple w audio_path transcript
          = Return (not_found_record audio_path)) ∧
     (path_exists w audio_path = true → getsize w audio_path = Return 0%Z →
        analyze_audio_metrics w audio_path transcript = ([], Return empty_file_record) ∧
        analyze_audio_simple w audio_path transcript = Return empty_file_record)).
Proof.
  unfold analyze_audio_metrics. split.
  - by intros ->.
  - intros lib ->. split_and!.
    + by intros e ->.
    + intros e size Hex Hsize Hnz Hload.
      unfold analyze_audio_metrics_body. rewrite Hex, Hsize. cbn.
      destruct (Z.eqb_spec size 0) as [|_]; [done|]. by rewrite Hload.
    + intros Hex.
      unfold analyze_audio_metrics_body, analyze_audio_simple, analyze_audio_simple_body.
      by rewrite Hex.
    + intros Hex Hsize.
      unfold analyze_audio_metrics_body, analyze_audio_simple, analyze_audio_simple_body.
      by rewrite Hex, Hsize.
Qed.

Lemma analyze_audio_metrics_fallback_witness :
  analyze_audio_metrics world_undecodable "answer.mp3" "I am excited"
    = ([fallback_notice (Exn "NoBackendError" "no backend could decode the file")],
       analyze_audio_simple world_undecodable "answer.mp3" "I am excited").
Proof.
  destruct (analyze_audio_metrics_fallback world_undecodable "answer.mp3" "I am excited")
    as [_ H].
  destruct (H lib_undecodable eq_refl) as (_ & Hdecode & _).
  apply (Hdecode _ 64000%Z); [reflexivity | reflexivity | discriminate | reflexivity].
Defined.

(** ** The performance aggregator *)

Lemma collect_fold history acc :
  fold_left collect history acc =
    {| pace_scores := pace_scores acc ++ audio_column "pace_score" history;
       confidence_scores := confidence_scores acc ++ audio_column "confidence_score" history;
       tone_scores := tone_scores acc ++ audio_column "tone_score" history;
       content_scores := content_scores acc ++ content_column history |}.
Proof.
  revert acc. induction history as [|entry history IH]; intros acc.
  - cbn. rewrite !app_nil_r. by destruct acc.
  - cbn [fold_left]. rewrite IH. unfold collect at 1 2 3 4.
    unfold audio_column, content_column. cbn [flat_map map].
    destruct (usable (default ∅ (audio_metrics entry))); cbn;
      by rewrite <- ?app_assoc.
Qed.

(** The aggregator on a non-empty history, with the loop replaced by the
    comprehensions. *)
Lemma calculate_performance_score_columns history :
  history ≠ [] →
  calculate_performance_score history =
    (avg_pace ← average_or_50 (audio_column "pace_score" history);
     avg_confidence ← average_or_50 (audio_column "confidence_score" history);
     avg_tone ← average_or_50 (audio_column "tone_score" history);
     let avg_content :=
       PyNum.sum (content_column history) / PyNum.len (content_column history) in
     let communication_score := (avg_pace + avg_confidence + avg_tone) / 3 in
     let overall_score := communication_score * (4 # 10) + avg_content * (6 # 10) in
     Return (dict [("overall", PyNum.round overall_score 1);
                   ("communication", PyNum.round communication_score 1);
                   ("technical", PyNum.round avg_content 1);
                   ("confidence", PyNum.round avg_confidence 1);
                   ("pace", PyNum.round avg_pace 1);
                   ("tone", PyNum.round avg_tone 1)])).
Proof.
  intros Hne. destruct history as [|entry history]; [done|].
  unfold calculate_performance_score. rewrite collect_fold. cbn [pace_scores confidence_scores tone_scores content_scores app].
  reflexivity.
Qed.

(** *** Rounding and averages *)

Lemma round_half_even_between (x : Q) (a b : Z) :
  inject_Z a <= x → x <= inject_Z b →
  (a ≤ PyNum.round_half_even x ≤ b)%Z.
Proof.
  intros Ha Hb. unfold PyNum.round_half_even.
  pose proof (Qfloor_le x) as Hfl.
  assert (a ≤ Qfloor x)%Z as Haf.
  { rewrite <- (Qfloor_Z a). by apply Qfloor_resp_le. }
  assert (Qfloor x ≤ b)%Z as Hfb.
  { rewrite <- (Qfloor_Z b). by apply Qfloor_resp_le. }
  assert (inject_Z (Qfloor x) < x → (Qfloor x + 1 ≤ b)%Z) as Hup.
  { intros Hlt. assert (Qfloor x < b)%Z; [|lia].
    rewrite Zlt_Qlt. by apply Qlt_le_trans with x. }
  case_cmp; try destruct (Z.even (Qfloor x)); split; try lia; apply Hup; lra.
Qed.

Lemma round_1_bounds (x : Q) :
  0 <= x → x <= 100 → 0 <= PyNum.round x 1 ∧ PyNum.round x 1 <= 100.
Proof.
  intros H0 H100. unfold PyNum.round.
  change (inject_Z (10 ^ Z.of_nat 1)) with 10.
  destruct (round_half_even_between (x * 10) 0 1000) as [Hlo Hhi].
  - change (inject_Z 0) with 0. lra.
  - change (inject_Z 1000) with 1000. lra.
  - rewrite Zle_Qle in Hlo, Hhi.
    change (inject_Z 0) with 0 in Hlo.
    change (inject_Z 1000) with 1000 in Hhi.
    split; qlra.
Qed.

Lemma len_cons {A} (x : A) (xs : list A) : PyNum.len (x :: xs) == PyNum.len xs + 1.
Proof.
  unfold PyNum.len. cbn [length]. rewrite Nat2Z.inj_succ, <- Z.add_1_r, inject_Z_plus.
  reflexivity.
Qed.

Lemma len_nonneg {A} (xs : list A) : 0 <= PyNum.len xs.
Proof.
  unfold PyNum.len. change 0 with (inject_Z 0). rewrite <- Zle_Qle. lia.
Qed.

Lemma len_pos {A} (xs : list A) : xs ≠ [] → 0 < PyNum.len xs.
Proof.
  destruct xs as [|x xs]; [done|]. intros _. rewrite len_cons.
  pose proof (len_nonneg xs). lra.
Qed.


Lemma sum_values_between (xs : list value) (acc : Q) :
  Forall (fun v => in_range v = true) xs →
  ∃ total, sum_values acc xs = Return total ∧
           acc <= total ∧ total <= acc + 100 * PyNum.len xs.
Proof.
  intros H. revert acc. induction H as [|v xs Hv _ IH]; intros acc.
  - exists acc. change (PyNum.len []) with 0. split_and!; [done | lra | lra].
  - destruct v as [q|]; [|done]. cbn in Hv.
    apply andb_true_iff in Hv as [Hq0%leb_le Hq100%leb_le].
    destruct (IH (acc + q)) as (total & Hsum & Hlo & Hhi).
    exists total. cbn [sum_values]. rewrite len_cons. split_and!; [done | lra | lra].
Qed.

Lemma sum_values_numeric (xs : list value) (acc : Q) :
  Forall (fun v => numeric v = true) xs → ∃ total, sum_values acc xs = Return total.
Proof.
  intros H. revert acc. induction H as [|v xs Hv _ IH]; intros acc.
  - by exists acc.
  - destruct v as [q|]; [|done]. cbn [sum_values]. apply IH.
Qed.

Lemma quotient_between (total n : Q) :
  0 < n → 0 <= total → total <= 0 + 100 * n → 0 <= total / n ∧ total / n <= 100.
Proof.
  intros Hn H0 H100. split.
  - apply Qle_shift_div_l; [done | lra].
  - apply Qle_shift_div_r; [done | lra].
Qed.

Lemma average_or_50_between (xs : list value) :
  Forall (fun v => in_range v = true) xs →
  ∃ avg, average_or_50 xs = Return avg ∧ 0 <= avg ∧ avg <= 100.
Proof.
  intros H. destruct xs as [|v xs].
  - exists 50. split_and!; [done | lra | lra].
  - destruct (sum_values_between (v :: xs) 0 H) as (total & Hsum & Hlo & Hhi).
    exists (total / PyNum.len (v :: xs)).
    unfold average_or_50. rewrite Hsum.
    destruct (quotient_between total (PyNum.len (v :: xs))) as [? ?];
      [by apply len_pos | done | done |]. done.
Qed.

Lemma average_or_50_numeric (xs : list value) :
  Forall (fun v => numeric v = true) xs → ∃ avg, average_or_50 xs = Return avg.
Proof.
  intros H. destruct xs as [|v xs]; [by exists 50|].
  destruct (sum_values_numeric (v :: xs) 0 H) as (total & Hsum).
  exists (total / PyNum.len (v :: xs)). unfold average_or_50. by rewrite Hsum.
Qed.

(** *** The columns of a well-formed history *)

Lemma audio_column_ok (P : value → bool) (key : string) (history : list Turn) :
  P (VNum 0) = true → key ∈ score_keys → history_ok P history →
  Forall (fun v => P v = true) (audio_column key history).
Proof.
  intros H0 Hkey H. induction H as [|entry history Hentry _ IH]; [constructor|].
  unfold audio_column. cbn [flat_map]. apply Forall_app. split; [|exact IH].
  unfold turn_ok in Hentry.
  destruct (usable (default ∅ (audio_metrics entry))); [|constructor].
  constructor; [|constructor].
  unfold metrics_ok, score_keys in Hentry. cbn [forallb] in Hentry.
  apply andb_true_iff in Hentry as [Hp Hentry].
  apply andb_true_iff in Hentry as [Hc Hentry].
  apply andb_true_iff in Hentry as [Ht _].
  unfold get, score_keys in *.
  apply elem_of_cons in Hkey as [->|Hkey]; [by destruct (_ !! "pace_score")|].
  apply elem_of_cons in Hkey as [->|Hkey]; [by destruct (_ !! "confidence_score")|].
  apply list_elem_of_singleton in Hkey as ->. by destruct (_ !! "tone_score").
Qed.






(** C2 (as stated, refuted).  For the empty history the aggregator
    returns the four top-level scores, each 0, and no ["pace"] and no
    ["tone"] key: the six keys are not always present. *)
Lemma calculate_performance_score_empty_lacks_keys :
  (∃ d, calculate_performance_score [] = Return d ∧
        d !! "overall" = Some 0 ∧ d !! "communication" = Some 0 ∧
        d !! "technical" = Some 0 ∧ d !! "confidence" = Some 0 ∧
        d !! "pace" = None ∧ d !! "tone" = None) ∧
  ¬ (∀ history, ∃ d, calculate_performance_score history = Return d ∧
                     ∀ key, key ∈ six_keys → is_Some (d !! key)).
Proof.
  split.
  - eexists. split; [reflexivity|]. split_and!; reflexivity.
  - intros H. destruct (H []) as (d & Hd & Hkeys).
    injection Hd as <-.
    destruct (Hkeys "pace") as [v Hv]; [set_solver|]. discriminate Hv.
Qed.

(** C2 (amended).  On every history whose usable metrics carry numeric
    scores the aggregator returns a record; for a non-empty history its
    keys are exactly overall, communication, technical, confidence, pace
    and tone; for the empty history they are exactly overall,
    communication, technical and confidence, each with score 0. *)
Theorem calculate_performance_score_keys (history : list Turn) :
  history_ok numeric history →
  ∃ d, calculate_performance_score history = Return d ∧
       (history ≠ [] → dom d = list_to_set six_keys) ∧
       (history = [] →
          dom d = list_to_set four_keys ∧ ∀ key, key ∈ four_keys → d !! key = Some 0).
Proof.
  intros Hok. destruct (decide (history = [])) as [->|Hne].
  - eexists. split; [reflexivity|]. split; [done|]. intros _. split.
    + unfold dict. rewrite dom_list_to_map_L. reflexivity.
    + intros key Hkey. unfold four_keys in Hkey.
      repeat (apply elem_of_cons in Hkey as [->|Hkey]);
        [ .. | by apply elem_of_nil in Hkey]; reflexivity.
  - rewrite calculate_performance_score_columns by done.
    destruct (average_or_50_numeric (audio_column "pace_score" history)) as (avg_pace & ->).
    { apply (audio_column_ok numeric); [done | set_solver | done]. }
    destruct (average_or_50_numeric (audio_column "confidence_score" history))
      as (avg_confidence & ->).
    { apply (audio_column_ok numeric); [done | set_solver | done]. }
    destruct (average_or_50_numeric (audio_column "tone_score" history)) as (avg_tone & ->).
    { apply (audio_column_ok numeric); [done | set_solver | done]. }
    eexists. split; [reflexivity|]. split; [|done]. intros _.
    unfold dict. rewrite dom_list_to_map_L. reflexivity.
Qed.

Lemma calculate_performance_score_keys_witness :
  ∃ d, calculate_performance_score [turn_error; turn_valid_80] = Return d ∧
       dom d = list_to_set six_keys.
Proof.
  destruct (calculate_performance_score_keys [turn_error; turn_valid_80])
    as (d & Hd & Hkeys & _).
  - repeat constructor.
  - exists d. split; [exact Hd|]. apply Hkeys. discriminate.
Defined.

(** *** Error-tagged turns *)

Lemma audio_column_app key h1 h2 :
  audio_column key (h1 ++ h2) = audio_column key h1 ++ audio_column key h2.
Proof. unfold audio_column. apply flat_map_app. Qed.

Lemma usable_error (m : Metrics) (v : value) :
  m !! "error" = Some v → truthy v = true → usable m = false.
Proof. intros Hm Hv. unfold usable. rewrite Hm, Hv. apply andb_false_r. Qed.

Lemma audio_column_skip_error key h1 h2 e m v :
  audio_metrics e = Some m → m !! "error" = Some v → truthy v = true →
  audio_column key (h1 ++ e :: h2) = audio_column key (h1 ++ h2).
Proof.
  intros He Hm Hv. rewrite !audio_column_app. f_equal.
  unfold audio_column. cbn [flat_map]. rewrite He.
  change (default ∅ (Some m)) with m. by rewrite (usable_error m v).
Qed.

(** C3 (as stated, refuted).  A turn whose metrics carry an error field
    with an empty message is not excluded: next to a valid turn with pace
    score 80 it is counted with its score 0, and the reported pace is 40. *)
Lemma blank_error_turn_counted :
  (∃ m, audio_metrics turn_blank_error = Some m ∧ m !! "error" = Some (VStr "")) ∧
  (∃ p, reported [turn_blank_error; turn_valid_80] "pace" = Return (Some p) ∧ p == 40) ∧
  (∃ p, reported [turn_valid_80] "pace" = Return (Some p) ∧ p == 80) ∧
  ¬ (∀ h1 h2 e m,
       audio_metrics e = Some m → is_Some (m !! "error") → h1 ++ h2 ≠ [] →
       reported (h1 ++ e :: h2) "pace" = reported (h1 ++ h2) "pace").
Proof.
  split_and!.
  - eexists. split; reflexivity.
  - eexists. split; [vm_compute; reflexivity | reflexivity].
  - eexists. split; [vm_compute; reflexivity | reflexivity].
  - intros H.
    specialize (H [] [turn_valid_80] turn_blank_error _ eq_refl).
    assert (reported [turn_blank_error; turn_valid_80] "pace"
            = reported [turn_valid_80] "pace") as Heq.
    { apply H; [by eexists | discriminate]. }
    vm_compute in Heq. discriminate Heq.
Qed.

(** C3 (amended).  A turn whose metrics carry an error value that is
    true (a non-empty message) is excluded from the pace, confidence and
    tone averages: inserting it anywhere in a non-empty history changes
    none of the three reported scores.  Such a turn next to the valid
    turn with pace score 80 yields pace 80. *)
Theorem error_turn_excluded (h1 h2 : list Turn) (e : Turn) (m : Metrics) (v : value) :
  audio_metrics e = Some m → m !! "error" = Some v → truthy v = true →
  (h1 ++ h2 ≠ [] →
     reported (h1 ++ e :: h2) "pace" = reported (h1 ++ h2) "pace" ∧
     reported (h1 ++ e :: h2) "confidence" = reported (h1 ++ h2) "confidence" ∧
     reported (h1 ++ e :: h2) "tone" = reported (h1 ++ h2) "tone") ∧
  (∃ p, reported [e; turn_valid_80] "pace" = Return (Some p) ∧ p == 80).
Proof.
  intros He Hm Hv.
  assert (∀ h1 h2, h1 ++ h2 ≠ [] →
     reported (h1 ++ e :: h2) "pace" = reported (h1 ++ h2) "pace" ∧
     reported (h1 ++ e :: h2) "confidence" = reported (h1 ++ h2) "confidence" ∧
     reported (h1 ++ e :: h2) "tone" = reported (h1 ++ h2) "tone") as Hskip.
  { clear h1 h2. intros h1 h2 Hne. unfold reported.
    rewrite !calculate_performance_score_columns by (done || by destruct h1).
    rewrite !(audio_column_skip_error _ h1 h2 e m v) by done.
    destruct (average_or_50 (audio_column "pace_score" (h1 ++ h2))); [|done].
    destruct (average_or_50 (audio_column "confidence_score" (h1 ++ h2))); [|done].
    destruct (average_or_50 (audio_column "tone_score" (h1 ++ h2))); [|done].
    split_and!; reflexivity. }
  split; [apply Hskip|].
  destruct (Hskip [] [turn_valid_80]) as [Hpace _]; [discriminate|].
  cbn [app] in Hpace. rewrite Hpace.
  eexists. split; [vm_compute; reflexivity | reflexivity].
Qed.

Lemma error_turn_excluded_witness :
  reported ([turn_valid_80] ++ turn_error :: [turn_valid_80]) "pace"
    = reported ([turn_valid_80] ++ [turn_valid_80]) "pace".
Proof.
  destruct (error_turn_excluded [turn_valid_80] [turn_valid_80] turn_error
              (failure_record (Exn "PermissionError" "Permission denied"))
              (VStr "Simple audio analysis failed: Permission denied"))
    as [H _]; [reflexivity | reflexivity | reflexivity |].
  apply H. discriminate.
Defined.

(** ** Scores produced by the fallback extractor *)

Lemma clamp_between (lo hi x : Q) :
  lo <= hi →
  lo <= PyNum.max lo (PyNum.min hi x) ∧ PyNum.max lo (PyNum.min hi x) <= hi.
Proof. intros H. unfold PyNum.max, PyNum.min. case_cmp; split; lra. Qed.

Lemma calculate_confidence_score_between (transcript : string) (duration : Q) :
  10 <= calculate_confidence_score transcript duration ∧
  calculate_confidence_score transcript duration <= 100.
Proof.
  unfold calculate_confidence_score.
  destruct (negb (PyStr.truthy transcript) || PyNum.eqb duration 0); [split; lra|].
  cbv zeta. apply clamp_between. lra.
Qed.

Lemma calculate_tone_score_between (transcript : string) :
  20 <= calculate_tone_score transcript ∧ calculate_tone_score transcript <= 100.
Proof.
  unfold calculate_tone_score.
  destruct (negb (PyStr.truthy transcript)); [split; lra|].
  cbv zeta. apply clamp_between. lra.
Qed.

Lemma in_range_round (x : Q) :
  0 <= x → x <= 100 → in_range (VNum (PyNum.round x 1)) = true.
Proof.
  intros H0 H100. destruct (round_1_bounds x H0 H100) as [Hlo Hhi].
  unfold in_range. apply andb_true_iff. by rewrite !leb_le.
Qed.

Lemma metrics_ok_intro (P : value → bool) (m : Metrics) :
  (∀ key, key ∈ score_keys → match m !! key with Some v => P v = true | None => True end) →
  metrics_ok P m = true.
Proof.
  intros H. unfold metrics_ok. apply forallb_forall. intros key Hkey.
  apply list_elem_of_In in Hkey. specialize (H key Hkey). by destruct (m !! key).
Qed.

Lemma analyze_audio_simple_body_in_range (w : World) (audio_path transcript : string) d :
  analyze_audio_simple_body w audio_path transcript = Return d →
  metrics_ok in_range d = true.
Proof.
  unfold analyze_audio_simple_body.
  destruct (path_exists w audio_path); cbn [negb]; [|by intros [= <-]].
  destruct (getsize w audio_path) as [size|e]; cbn [mbind outcome_bind]; [|done].
  destruct (size =? 0)%Z; [by intros [= <-]|].
  destruct (try_except _ _) as [duration|e]; [|done].
  intros [= <-]. apply metrics_ok_intro. intros key Hkey. unfold score_keys in Hkey.
  repeat (apply elem_of_cons in Hkey as [->|Hkey]); [ .. | by apply elem_of_nil in Hkey].
  - match goal with |- context [calculate_pace_score ?x] =>
      destruct (calculate_pace_score_bounds x) end.
    apply in_range_round; lra.
  - destruct (calculate_confidence_score_between transcript duration).
    apply in_range_round; lra.
  - destruct (calculate_tone_score_between transcript).
    apply in_range_round; lra.
Qed.

(** Every record the fallback extractor returns is acceptable to the
    aggregator: the scores it carries, if any, are numbers of [0,100]. *)
Lemma analyze_audio_simple_in_range (w : World) (audio_path transcript : string) d :
  analyze_audio_simple w audio_path transcript = Return d → metrics_ok in_range d = true.
Proof.
  unfold analyze_audio_simple.
  destruct (analyze_audio_simple_body w audio_path transcript) as [m|e] eqn:Hbody.
  - intros [= <-]. by apply (analyze_audio_simple_body_in_range w audio_path transcript).
  - by intros [= <-].
Qed.

(** ** Sample runs *)

Example pace_ladder_samples :
  calculate_pace_score 150 == 95 ∧ calculate_pace_score 120 == 70 ∧
  calculate_pace_score 90 == 140 # 3 ∧ calculate_pace_score 40 == 20 ∧
  calculate_pace_score 390 == 20.
Proof. split_and!; reflexivity. Qed.

Example round_samples :
  PyNum.round (267 # 10) 1 == 267 # 10 ∧ PyNum.round (80 # 3) 1 == 267 # 10 ∧
  PyNum.round (1 # 4) 1 == 2 # 10 ∧ PyNum.round 2 2 == 2.
Proof. split_and!; reflexivity. Qed.

Example string_samples :
  PyStr.split "  I am  very excited " = ["I"; "am"; "very"; "excited"] ∧
  PyStr.count "um, umum like aaaa" "um" = 3%nat ∧
  PyStr.count "aaaa" "aa" = 2%nat ∧
  PyStr.lower "Senior ENGINEER" = "senior engineer" ∧
  PyStr.contains "engineer" "senior engineer" = true ∧
  PyStr.join ", " ["a"; "b"; "c"] = "a, b, c".
Proof. split_and!; reflexivity. Qed.

Example analyze_audio_simple_sample :
  ∃ d, analyze_audio_simple world_undecodable "answer.mp3"
         "I am very excited about this team project and the skills um like" = Return d ∧
       d !! "duration" = Some (VNum (200 # 100)) ∧
       d !! "words_per_minute" = Some (VNum (3900 # 10)) ∧
       d !! "pace_score" = Some (VNum (200 # 10)) ∧
       d !! "confidence_score" = Some (VNum (450 # 10)) ∧
       d !! "tone_score" = Some (VNum (850 # 10)) ∧
       d !! "word_count" = Some (VNum 13) ∧
       d !! "analysis_summary"
         = Some (VStr "work on pacing, build more confidence, professional tone.") ∧
       d !! "error" = None.
Proof. eexists. split; [reflexivity|]. split_and!; vm_compute; reflexivity. Qed.

(** * Further properties of the code *)

(** ** simple_audio_analyzer.py *)

(** X1. The confidence heuristic is 30 for an empty transcript or a zero
    duration and otherwise stays within [15,80]: the clamp to [10,100]
    of its last line is never active. *)
Theorem calculate_confidence_score_effective_range (transcript : string) (duration : Q) :
  15 <= calculate_confidence_score transcript duration ∧
  calculate_confidence_score transcript duration <= 80 ∧
  (transcript = "" ∨ duration == 0 → calculate_confidence_score transcript duration == 30).
Proof.
  unfold calculate_confidence_score.
  destruct (negb (PyStr.truthy transcript) || PyNum.eqb duration 0) eqn:Hguard.
  - split_and!; [lra | lra | reflexivity].
  - cbv zeta.
    generalize (PyNum.len (PyStr.split transcript)).
    generalize (PyNum.sum
      (map (fun filler =>
              inject_Z (Z.of_nat (PyStr.count (PyStr.lower transcript) filler)))
           filler_words)).
    intros filler_count word_count.
    apply orb_false_iff in Hguard as [Htr Hdur].
    split_and!.
    + destruct (PyStr.any_in positive_words (PyStr.lower transcript));
        case_cmp; unfold PyNum.min; case_cmp; unfold PyNum.max; case_cmp; lra.
    + destruct (PyStr.any_in positive_words (PyStr.lower transcript));
        case_cmp; unfold PyNum.min; case_cmp; unfold PyNum.max; case_cmp; lra.
    + intros [-> | Hd]; [done|]. apply eqb_neq in Hdur. done.
Qed.

(** X2. The tone heuristic is 40 for an empty transcript and otherwise
    stays within [50,85]: the clamp to [20,100] of its last line is never
    active. *)
Theorem calculate_tone_score_effective_range (transcript : string) :
  (transcript = "" → calculate_tone_score transcript == 40) ∧
  (transcript ≠ "" →
     50 <= calculate_tone_score transcript ∧ calculate_tone_score transcript <= 85).
Proof.
  unfold calculate_tone_score. split.
  - intros ->. reflexivity.
  - intros Hne. destruct transcript as [|c rest]; [done|].
    cbn [PyStr.truthy negb]. cbv zeta.
    generalize (PyNum.len
      (filter (fun word => PyStr.contains word (PyStr.lower (String c rest)) = true)
              professional_words)).
    intros professional_count.
    destruct (PyStr.any_in enthusiastic_words (PyStr.lower (String c rest)));
      destruct (PyStr.any_in negative_words (PyStr.lower (String c rest)));
      case_cmp; unfold PyNum.min; case_cmp; unfold PyNum.max; case_cmp; split; lra.
Qed.

Lemma calculate_tone_score_effective_range_witness :
  50 <= calculate_tone_score "I love hard problems" ∧
  calculate_tone_score "I love hard problems" <= 85.
Proof.
  destruct (calculate_tone_score_effective_range "I love hard problems") as [_ H].
  apply H. discriminate.
Defined.

Lemma calculate_confidence_score_effective_range_witness :
  calculate_confidence_score "" 3 == 30.
Proof.
  destruct (calculate_confidence_score_effective_range "" 3) as (_ & _ & H).
  apply H. by left.
Defined.

(** Case analysis on how the duration is obtained: from the WAV header,
    from the size after a zero frame rate, or from the size after a
    failed read. *)
Ltac case_duration :=
  destruct (wave_read _ _) as [[? ?]|?];
  cbn [mbind outcome_bind try_except];
  [ unfold true_div; destruct (PyNum.eqb (inject_Z _) 0);
    cbn [mbind outcome_bind try_except]
  | ].

Lemma usable_iff (m : Metrics) :
  usable m = true ↔
  m ≠ ∅ ∧ ∀ v, m !! "error" = Some v → truthy v = false.
Proof.
  unfold usable. rewrite andb_true_iff, bool_decide_eq_true, negb_true_iff.
  destruct (m !! "error") as [v|]; naive_solver.
Qed.

(** X3. The fallback extractor returns a record with an [error] field
    exactly when the file is missing, is empty, or its size cannot be
    read; every other record is tagged [method = simple_analysis].  A
    WAV header that cannot be read never produces an error. *)
Theorem analyze_audio_simple_error_iff (w : World) (audio_path transcript : string) :
  ∃ d, analyze_audio_simple w audio_path transcript = Return d ∧
       (is_Some (d !! "error") ↔
          path_exists w audio_path = false ∨
          getsize w audio_path = Return 0%Z ∨
          ∃ e, getsize w audio_path = Raise e) ∧
       (d !! "error" = None ↔ d !! "method" = Some (VStr "simple_analysis")).
Proof.
  unfold analyze_audio_simple, analyze_audio_simple_body.
  destruct (path_exists w audio_path) eqn:Hex; cbn [negb].
  2: { eexists. split; [reflexivity|]. split; [|done]. split; [by left | by eexists]. }
  destruct (getsize w audio_path) as [size|e] eqn:Hsize; cbn [mbind outcome_bind].
  2: { eexists. split; [reflexivity|]. split; [|done].
       split; [intros _; right; right; by eexists | by eexists]. }
  destruct (Z.eqb_spec size 0) as [->|Hnz].
  { eexists. split; [reflexivity|]. split; [|done].
    split; [intros _; right; by left | by eexists]. }
  case_duration; (eexists; split; [reflexivity|]); (split; [|done]);
    (split; [by intros [? ?]|]); (intros [?|[?|[? ?]]]; [done | | done]); congruence.
Qed.

(** X4. Every record the fallback extractor returns can be handed to
    the aggregator: its pace, confidence and tone scores, when present,
    are numbers of [0,100], and the aggregator uses the record exactly
    when it carries no error. *)
Theorem analyze_audio_simple_feeds_aggregator (w : World) (audio_path transcript : string) :
  ∃ d, analyze_audio_simple w audio_path transcript = Return d ∧
       metrics_ok in_range d = true ∧
       (usable d = true ↔ d !! "error" = None).
Proof.
  destruct (analyze_audio_simple w audio_path transcript) as [d|e] eqn:Hrun.
  2: { destruct (try_except_returns (analyze_audio_simple_body w audio_path transcript)
                   failure_record) as [d' Hd'].
       unfold analyze_audio_simple in Hrun. congruence. }
  exists d. split; [done|]. split.
  { by apply (analyze_audio_simple_in_range w audio_path transcript). }
  revert Hrun. unfold analyze_audio_simple, analyze_audio_simple_body.
  destruct (path_exists w audio_path); cbn [negb].
  2: { intros [= <-]. by vm_compute. }
  destruct (getsize w audio_path) as [size|e] eqn:Hsize; cbn [mbind outcome_bind].
  2: { intros [= <-]. rewrite usable_iff. split; [|done].
       intros [_ H]. by specialize (H _ eq_refl). }
  destruct (size =? 0)%Z.
  { intros [= <-]. by vm_compute. }
  assert (∀ m : Metrics, m = ∅ → m !! "method" = None) as Hlook by (by intros ? ->).
  case_duration; intros [= <-]; rewrite usable_iff; (split; [done|]); intros _;
    (split; [|done]); intros Hempty; apply Hlook in Hempty; discriminate Hempty.
Qed.

(** X5. With an empty transcript on a readable, non-empty file the
    fallback extractor reports no speech: 0 words, 0 words per minute,
    pace 30, confidence 30, tone 40 and the summary "work on pacing,
    build more confidence.", without an error. *)
Theorem analyze_audio_simple_empty_transcript (w : World) (audio_path : string) (size : Z) :
  path_exists w audio_path = true → getsize w audio_path = Return size → size ≠ 0%Z →
  ∃ d, analyze_audio_simple w audio_path "" = Return d ∧
       stores d "word_count" 0 ∧ stores d "words_per_minute" 0 ∧
       stores d "pace_score" 30 ∧ stores d "confidence_score" 30 ∧
       stores d "tone_score" 40 ∧
       d !! "analysis_summary" = Some (VStr "work on pacing, build more confidence.") ∧
       d !! "error" = None.
Proof.
  intros Hex Hsize Hnz. unfold analyze_audio_simple, analyze_audio_simple_body.
  rewrite Hex. cbn [negb]. rewrite Hsize. cbn [mbind outcome_bind].
  destruct (Z.eqb_spec size 0) as [|_]; [done|].
  case_duration; cbn [PyStr.truthy]; rewrite andb_false_r;
    (eexists; split; [reflexivity|]);
    split_and!; try (eexists; split; [reflexivity|]); reflexivity.
Qed.

Lemma analyze_audio_simple_empty_transcript_witness :
  ∃ d, analyze_audio_simple world_undecodable "answer.mp3" "" = Return d ∧
       stores d "pace_score" 30 ∧ stores d "confidence_score" 30 ∧
       stores d "tone_score" 40.
Proof.
  destruct (analyze_audio_simple_empty_transcript world_undecodable "answer.mp3" 64000)
    as (d & Hd & _ & _ & Hp & Hc & Ht & _); [reflexivity | reflexivity | discriminate |].
  exists d. by split_and!.
Defined.

(** ** adaptive_interviewer.py: the aggregator *)







Lemma audio_column_unusable (key : string) (history : list Turn) :
  Forall (fun entry => usable (default ∅ (audio_metrics entry)) = false) history →
  audio_column key history = [].
Proof.
  induction 1 as [|entry history Hentry _ IH]; [done|].
  unfold audio_column. cbn [flat_map]. rewrite Hentry. exact IH.
Qed.

(** X8. When no turn of a non-empty history has usable metrics (none
    recorded, an empty record, or an error), pace, confidence, tone and
    communication all take the default 50. *)
Theorem calculate_performance_score_defaults (history : list Turn) :
  history ≠ [] →
  Forall (fun entry => usable (default ∅ (audio_metrics entry)) = false) history →
  ∃ d, calculate_performance_score history = Return d ∧
       reports d "pace" 50 ∧ reports d "confidence" 50 ∧ reports d "tone" 50 ∧
       reports d "communication" 50.
Proof.
  intros Hne Hno. rewrite calculate_performance_score_columns by done.
  rewrite !audio_column_unusable by done. cbn [average_or_50 mbind outcome_bind].
  eexists. split; [reflexivity|].
  split_and!; (eexists; split; [reflexivity|]); reflexivity.
Qed.

Lemma calculate_performance_score_defaults_witness :
  ∃ d, calculate_performance_score [turn_error] = Return d ∧ reports d "pace" 50.
Proof.
  destruct (calculate_performance_score_defaults [turn_error])
    as (d & Hd & Hp & _);
    [discriminate | constructor; [vm_compute; reflexivity | constructor] |].
  exists d. split; [exact Hd | exact Hp].
Defined.

(** *** Rounding respects equality of rationals *)




Lemma round_1_within (x : Q) (a b : Z) :
  inject_Z a / 10 <= x → x <= inject_Z b / 10 →
  inject_Z a / 10 <= PyNum.round x 1 ∧ PyNum.round x 1 <= inject_Z b / 10.
Proof.
  intros Ha Hb. unfold PyNum.round.
  change (inject_Z (10 ^ Z.of_nat 1)) with 10.
  destruct (round_half_even_between (x * 10) a b) as [Hlo Hhi]; [qlra | qlra |].
  rewrite Zle_Qle in Hlo, Hhi. split; qlra.
Qed.

(** *** The content ladder *)

Lemma content_score_within (answer : string) :
  20 <= content_score answer ∧ content_score answer <= 85.
Proof. unfold content_score. case_cmp; split; lra. Qed.

Lemma sum_within (xs : list Q) (acc : Q) :
  Forall (fun q => 20 <= q ∧ q <= 85) xs →
  acc + 20 * PyNum.len xs <= fold_left Qplus xs acc ∧
  fold_left Qplus xs acc <= acc + 85 * PyNum.len xs.
Proof.
  intros H. revert acc. induction H as [|q xs [Hq0 Hq100] _ IH]; intros acc.
  - cbn. change (PyNum.len []) with 0. split; lra.
  - cbn [fold_left]. destruct (IH (acc + q)) as [IH1 IH2].
    rewrite len_cons. split; lra.
Qed.

Lemma content_average_within (history : list Turn) :
  history ≠ [] →
  20 <= PyNum.sum (content_column history) / PyNum.len (content_column history) ∧
  PyNum.sum (content_column history) / PyNum.len (content_column history) <= 85.
Proof.
  intros Hne.
  destruct (sum_within (content_column history) 0) as [Hlo Hhi].
  { unfold content_column. apply Forall_map, Forall_forall. intros entry _.
    apply content_score_within. }
  assert (0 < PyNum.len (content_column history)) as Hlen.
  { apply len_pos. unfold content_column. by destruct history. }
  unfold PyNum.sum. split.
  - apply Qle_shift_div_l; [done | lra].
  - apply Qle_shift_div_r; [done | lra].
Qed.

(** X9. For every non-empty history with scores in [0,100], the
    technical score lies in [20,85] whatever the audio, and the overall
    score lies in [12,91]: the content ladder alone keeps the overall
    score away from both ends of the scale. *)
Theorem calculate_performance_score_technical_range (history : list Turn) :
  history ≠ [] → history_ok in_range history →
  ∃ d technical overall,
    calculate_performance_score history = Return d ∧
    d !! "technical" = Some technical ∧ 20 <= technical ∧ technical <= 85 ∧
    d !! "overall" = Some overall ∧ 12 <= overall ∧ overall <= 91.
Proof.
  intros Hne Hok. rewrite calculate_performance_score_columns by done.
  destruct (average_or_50_between (audio_column "pace_score" history))
    as (avg_pace & -> & Hp0 & Hp100).
  { apply (audio_column_ok in_range); [done | set_solver | done]. }
  destruct (average_or_50_between (audio_column "confidence_score" history))
    as (avg_confidence & -> & Hc0 & Hc100).
  { apply (audio_column_ok in_range); [done | set_solver | done]. }
  destruct (average_or_50_between (audio_column "tone_score" history))
    as (avg_tone & -> & Ht0 & Ht100).
  { apply (audio_column_ok in_range); [done | set_solver | done]. }
  destruct (content_average_within history Hne) as [Hk0 Hk100].
  cbn [mbind outcome_bind].
  revert Hk0 Hk100.
  generalize (PyNum.sum (content_column history) / PyNum.len (content_column history)).
  intros avg_content Hk0 Hk100.
  eexists _, _, _. split; [reflexivity|].
  split; [reflexivity|].
  destruct (round_1_within avg_content 200 850) as [? ?];
    [change (inject_Z 200) with 200; qlra | change (inject_Z 850) with 850; qlra |].
  change (inject_Z 200) with 200 in *. change (inject_Z 850) with 850 in *.
  cbn [snd]. split; [qlra|]. split; [qlra|]. split; [reflexivity|]. cbn [snd].
  match goal with |- 12 <= PyNum.round ?x 1 ∧ _ =>
    destruct (round_1_within x 120 910) as [? ?] end;
    [change (inject_Z 120) with 120; qlra | change (inject_Z 910) with 910; qlra |].
  change (inject_Z 120) with 120 in *. change (inject_Z 910) with 910 in *.
  split; qlra.
Qed.

Lemma calculate_performance_score_technical_range_witness :
  ∃ d technical overall,
    calculate_performance_score [turn_error; turn_valid_80] = Return d ∧
    d !! "technical" = Some technical ∧ 20 <= technical ∧ technical <= 85 ∧
    d !! "overall" = Some overall ∧ 12 <= overall ∧ overall <= 91.
Proof.
  apply (calculate_performance_score_technical_range [turn_error; turn_valid_80]).
  - discriminate.
  - repeat (constructor; [vm_compute; reflexivity|]). constructor.
Defined.

(** *** Short answers *)






(** *** The order of the turns *)









(** ** audio_analyzer.py: the scores of the full analysis *)

(** X12. The full-analysis pace score lies in [0,100], is proportional
    to the speaking rate between 0 and 150 words per minute, is 0 for a
    rate of 0 or less and stays at 100 for every rate of 150 or more; it
    never decreases when the rate grows. *)
Theorem signal_pace_score_saturates (wpm wpm' : Q) :
  0 <= signal_pace_score wpm ∧ signal_pace_score wpm <= 100 ∧
  (150 <= wpm → signal_pace_score wpm == 100) ∧
  (wpm <= 0 → signal_pace_score wpm == 0) ∧
  (0 <= wpm → wpm <= 150 → signal_pace_score wpm == wpm / 150 * 100) ∧
  (wpm <= wpm' → signal_pace_score wpm <= signal_pace_score wpm').
Proof.
  unfold signal_pace_score, PyNum.max.
  split_and!; try intros; case_cmp; unfold PyNum.min; case_cmp; qlra.
Qed.

Lemma signal_pace_score_saturates_witness :
  signal_pace_score 400 == 100 ∧ signal_pace_score 90 <= signal_pace_score 120.
Proof.
  destruct (signal_pace_score_saturates 400 400) as (_ & _ & H & _).
  destruct (signal_pace_score_saturates 90 120) as (_ & _ & _ & _ & _ & Hm).
  split; [apply H | apply Hm]; discriminate.
Defined.

(** X13. The full-analysis tone score lies in [0,100], reaches 100
    exactly at a pitch variation of 50, is 0 exactly when the variation
    is at most 0 or at least 100, and is symmetric around 50. *)
Theorem signal_tone_score_peak (pitch_variation delta : Q) :
  0 <= signal_tone_score pitch_variation ∧ signal_tone_score pitch_variation <= 100 ∧
  (signal_tone_score pitch_variation == 100 ↔ pitch_variation == 50) ∧
  (signal_tone_score pitch_variation == 0 ↔
     pitch_variation <= 0 ∨ 100 <= pitch_variation) ∧
  signal_tone_score (50 + delta) == signal_tone_score (50 - delta).
Proof.
  unfold signal_tone_score, PyNum.max. cbv zeta.
  destruct (Qabs_cases (pitch_variation - 50)) as [Hn Ha].
  destruct (Qabs_cases (50 + delta - 50)) as [Hn1 Ha1].
  destruct (Qabs_cases (50 - delta - 50)) as [Hn2 Ha2].
  revert Hn Ha Hn1 Ha1 Hn2 Ha2.
  generalize (Qabs (pitch_variation - 50)), (Qabs (50 + delta - 50)),
             (Qabs (50 - delta - 50)).
  intros a a1 a2 Hn Ha Hn1 Ha1 Hn2 Ha2.
  split_and!.
  - case_cmp; lra.
  - case_cmp; lra.
  - case_cmp; split; intros H; destruct Ha; lra.
  - case_cmp; split.
    + intros H. destruct Ha; [right | left]; lra.
    + intros [H|H]; destruct Ha; lra.
    + intros _. destruct Ha; destruct (Qlt_le_dec pitch_variation 50); [right|right|left|left]; lra.
    + intros _. reflexivity.
  - case_cmp; destruct Ha1, Ha2; lra.
Qed.

(** X14. For an energy with non-negative mean and deviation the volume
    consistency lies in (0,1], equals 1 when the deviation is 0, and the
    full-analysis confidence score lies in (0,100]. *)
Theorem volume_consistency_range (volume_mean volume_std : Q) :
  0 <= volume_mean → 0 <= volume_std →
  0 < volume_consistency volume_mean volume_std ∧
  volume_consistency volume_mean volume_std <= 1 ∧
  (volume_std == 0 → volume_consistency volume_mean volume_std == 1) ∧
  0 < signal_confidence_score (volume_consistency volume_mean volume_std) ∧
  signal_confidence_score (volume_consistency volume_mean volume_std) <= 100.
Proof.
  intros Hmean Hstd. unfold volume_consistency.
  assert (0 < volume_mean + (1 # 100)) as Hden by lra.
  assert (0 <= volume_std / (volume_mean + (1 # 100))) as Hratio.
  { apply Qle_shift_div_l; [done | lra]. }
  assert (volume_std == 0 → volume_std / (volume_mean + (1 # 100)) == 0) as Hzero.
  { intros ->. unfold Qdiv. ring. }
  revert Hratio Hzero. generalize (volume_std / (volume_mean + (1 # 100))).
  intros ratio Hratio Hzero.
  assert (0 < 1 / (1 + ratio)) as Hpos.
  { apply Qlt_shift_div_l; lra. }
  assert (1 / (1 + ratio) <= 1) as Hle.
  { apply Qle_shift_div_r; lra. }
  split_and!; try done.
  - intros H0. rewrite (Hzero H0). reflexivity.
  - unfold signal_confidence_score, PyNum.min. case_cmp; lra.
  - unfold signal_confidence_score, PyNum.min. case_cmp; lra.
Qed.

Lemma volume_consistency_range_witness :
  0 < volume_consistency (1 # 10) (1 # 20) ∧ volume_consistency (1 # 10) (1 # 20) <= 1.
Proof.
  destruct (volume_consistency_range (1 # 10) (1 # 20)) as (H1 & H2 & _);
    [discriminate | discriminate |].
  split; [exact H1 | exact H2].
Defined.



(** X16. The full-analysis summary joins one pace phrase chosen by
    > 80 / > 60 / > 40 / otherwise, one confidence phrase chosen by
    > 80 / > 60 / otherwise, and a pause phrase for a pause ratio above
    0.3 or below 0.05 (none in between); the tone score it receives has
    no influence on it. *)
Theorem generate_analysis_summary_phrases (p c t t' r : Q) :
  generate_analysis_summary p c t r = generate_analysis_summary p c t' r ∧
  ∃ P C R,
    generate_analysis_summary p c t r = PyStr.join ", " (P ++ C ++ R) +:+ "." ∧
    ((80 < p ∧ P = ["Great speaking pace"]) ∨
     (60 < p ∧ p <= 80 ∧ P = ["Good speaking pace"]) ∨
     (40 < p ∧ p <= 60 ∧ P = ["Consider adjusting your speaking speed"]) ∨
     (p <= 40 ∧ P = ["Speaking pace needs improvement"])) ∧
    ((80 < c ∧ C = ["confident delivery"]) ∨
     (60 < c ∧ c <= 80 ∧ C = ["fairly confident"]) ∨
     (c <= 60 ∧ C = ["work on speaking with more confidence"])) ∧
    ((3 # 10 < r ∧ R = ["reduce excessive pauses"]) ∨
     (r < 5 # 100 ∧ R = ["add strategic pauses for clarity"]) ∨
     (5 # 100 <= r ∧ r <= 3 # 10 ∧ R = [])).
Proof.
  split; [reflexivity|].
  exists (if PyNum.ltb 80 p then ["Great speaking pace"]
          else if PyNum.ltb 60 p then ["Good speaking pace"]
          else if PyNum.ltb 40 p then ["Consider adjusting your speaking speed"]
          else ["Speaking pace needs improvement"]),
         (if PyNum.ltb 80 c then ["confident delivery"]
          else if PyNum.ltb 60 c then ["fairly confident"]
          else ["work on speaking with more confidence"]),
         (if PyNum.ltb (3 # 10) r then ["reduce excessive pauses"]
          else if PyNum.ltb r (5 # 100) then ["add strategic pauses for clarity"]
          else []).
  split.
  - unfold generate_analysis_summary. case_cmp; reflexivity.
  - split_and!; case_cmp; naive_solver.
Qed.

(** ** adaptive_interviewer.py: the prompt context and the interviewer *)

(** Give the sentences that open the context, whichever they are. *)
Ltac opening_sentences :=
  first
    [ exists "The candidate is performing very well."; reflexivity
    | exists "The candidate is performing adequately."; reflexivity
    | exists "The candidate needs more support."; reflexivity
    | exists "The candidate is performing very well. Their communication could be clearer.";
      reflexivity
    | exists "The candidate is performing adequately. Their communication could be clearer.";
      reflexivity
    | exists "The candidate needs more support. Their communication could be clearer.";
      reflexivity
    | exists "The candidate is performing very well. They communicate very effectively.";
      reflexivity
    | exists "The candidate is performing adequately. They communicate very effectively.";
      reflexivity
    | exists "The candidate needs more support. They communicate very effectively.";
      reflexivity ].

(** X17. The prompt context ends with the clause
    " Focus on: <areas joined by ", ">." when there are focus areas, and
    does not mention "Focus on" at all when there are none. *)
Theorem get_adaptive_question_context_focus (scores : gmap string Q) (areas : list string) :
  (areas ≠ [] →
     ∃ prefix, get_adaptive_question_context scores areas
               = prefix +:+ " Focus on: " +:+ PyStr.join ", " areas +:+ ".") ∧
  (areas = [] →
     PyStr.contains "Focus on" (get_adaptive_question_context scores areas) = false).
Proof.
  unfold get_adaptive_question_context. split.
  - intros Hne. destruct areas as [|area areas]; [done|].
    case_cmp; opening_sentences.
  - intros ->. case_cmp; reflexivity.
Qed.

Lemma get_adaptive_question_context_focus_witness :
  ∃ prefix, get_adaptive_question_context (dict [("overall", 70)]) ["pacing"; "leadership"]
            = prefix +:+ " Focus on: " +:+ PyStr.join ", " ["pacing"; "leadership"] +:+ ".".
Proof.
  destruct (get_adaptive_question_context_focus (dict [("overall", 70)])
              ["pacing"; "leadership"]) as [H _].
  apply H. discriminate.
Defined.

(** X18. As the question task chains them: when the communication score
    is below 50, the focus areas open with [communication_skills], and
    the context both says that the communication could be clearer and
    ends with the focus clause listing those areas. *)
Theorem unclear_communication_is_targeted (scores : gmap string Q) (job_title : string) :
  get scores "communication" 50 < 50 →
  ∃ rest opening,
    identify_focus_areas scores job_title = "communication_skills" :: rest ∧
    (opening = "The candidate is performing very well." ∨
     opening = "The candidate is performing adequately." ∨
     opening = "The candidate needs more support.") ∧
    get_adaptive_question_context scores (identify_focus_areas scores job_title)
      = opening +:+ " Their communication could be clearer. Focus on: "
        +:+ PyStr.join ", " ("communication_skills" :: rest) +:+ ".".
Proof.
  intros Hcomm. rewrite identify_focus_areas_when.
  assert (PyNum.ltb (get scores "communication" 50) 60 = true) as ->
    by (apply ltb_lt; lra).
  cbn [when app].
  exists (when (PyNum.ltb (get scores "confidence" 50) 50) "confidence_building" ++
          when (PyNum.ltb (get scores "pace" 50) 40) "pacing" ++
          when ((PyStr.contains "engineer" (PyStr.lower job_title)
                 || PyStr.contains "developer" (PyStr.lower job_title))
                && PyNum.ltb (get scores "technical" 50) 60) "technical_depth" ++
          when (PyStr.contains "manager" (PyStr.lower job_title)) "leadership").
  unfold get_adaptive_question_context.
  assert (PyNum.ltb (get scores "communication" 50) 50 = true) as ->
    by (by apply ltb_lt).
  case_cmp;
    first
      [ exists "The candidate is performing very well.";
        split_and!; [reflexivity | by left | reflexivity]
      | exists "The candidate is performing adequately.";
        split_and!; [reflexivity | by (right; left) | reflexivity]
      | exists "The candidate needs more support.";
        split_and!; [reflexivity | by (right; right) | reflexivity] ].
Qed.

Lemma unclear_communication_is_targeted_witness :
  ∃ rest opening,
    identify_focus_areas (dict [("communication", 40)]) "Sales Manager"
      = "communication_skills" :: rest ∧
    get_adaptive_question_context (dict [("communication", 40)])
      (identify_focus_areas (dict [("communication", 40)]) "Sales Manager")
      = opening +:+ " Their communication could be clearer. Focus on: "
        +:+ PyStr.join ", " ("communication_skills" :: rest) +:+ ".".
Proof.
  destruct (unclear_communication_is_targeted (dict [("communication", 40)]) "Sales Manager")
    as (rest & opening & H1 & _ & H2); [reflexivity|].
  exists rest, opening. split; [exact H1 | exact H2].
Defined.

(** X19. On the record returned for the empty history every reported
    score is 0, yet [pacing] is never a focus area, because the record
    has no ["pace"] key and the default 50 is used: the areas are
    [communication_skills] and [confidence_building], followed by the
    title-dependent ones; past the second question the difficulty on
    that record is [supportive]. *)
Theorem empty_history_focus_areas (job_title : string) (n : Z) :
  ∃ d, calculate_performance_score [] = Return d ∧
       identify_focus_areas d job_title
         = (["communication_skills"; "confidence_building"]
            ++ when (PyStr.contains "engineer" (PyStr.lower job_title)
                     || PyStr.contains "developer" (PyStr.lower job_title)) "technical_depth"
            ++ when (PyStr.contains "manager" (PyStr.lower job_title)) "leadership") ∧
       ("pacing" ∉ identify_focus_areas d job_title) ∧
       ((2 < n)%Z → determine_difficulty_adjustment d n = "supportive").
Proof.
  eexists. split; [reflexivity|].
  assert (∀ d : gmap string Q,
            d = dict [("overall", 0); ("communication", 0); ("technical", 0);
                      ("confidence", 0)] →
            identify_focus_areas d job_title
            = ["communication_skills"; "confidence_building"]
              ++ when (PyStr.contains "engineer" (PyStr.lower job_title)
                       || PyStr.contains "developer" (PyStr.lower job_title))
                      "technical_depth"
              ++ when (PyStr.contains "manager" (PyStr.lower job_title)) "leadership")
    as Hareas.
  { intros d ->. rewrite identify_focus_areas_when.
    rewrite andb_true_r. reflexivity. }
  split; [by apply Hareas|]. split.
  - rewrite (Hareas _ eq_refl).
    rewrite !elem_of_app, !elem_of_when, !elem_of_cons, elem_of_nil. naive_solver.
  - intros Hn. unfold determine_difficulty_adjustment.
    destruct (Z.leb_spec n 2) as [|_]; [lia | reflexivity].
Qed.

Lemma append_assoc (a b c : string) : (a +:+ b) +:+ c = a +:+ (b +:+ c).
Proof.
  induction a as [|x a IH]; [reflexivity|]. rewrite !append_cons. by rewrite IH.
Qed.

Lemma append_nil_r (a : string) : a +:+ "" = a.
Proof.
  induction a as [|x a IH]; [reflexivity|]. rewrite append_cons. by rewrite IH.
Qed.

Lemma determine_difficulty_warm_up (scores : gmap string Q) (n : Z) :
  (n ≤ 2)%Z → determine_difficulty_adjustment scores n = "moderate".
Proof.
  intros Hn. unfold determine_difficulty_adjustment.
  destruct (Z.leb_spec n 2) as [|]; [done | lia].
Qed.

(** X20. For the first two questions the adaptive interviewer does not
    depend on the scores at all: any two score records give the same
    agent, whose backstory says that the candidate is performing well. *)
Theorem create_adaptive_interviewer_warm_up
    (job_title : string) (scores scores' : gmap string Q) (n : Z) (areas : list string) :
  (n ≤ 2)%Z →
  create_adaptive_interviewer job_title scores n areas
    = create_adaptive_interviewer job_title scores' n areas ∧
  PyStr.contains "The candidate is performing well. Continue with balanced questions."
    (backstory (create_adaptive_interviewer job_title scores n areas)) = true.
Proof.
  intros Hn. unfold create_adaptive_interviewer.
  rewrite !(determine_difficulty_warm_up _ n Hn). split; [reflexivity|].
  cbn [String.eqb Ascii.eqb Bool.eqb backstory app].
  apply contains_spec.
  destruct (list_in "communication_skills" areas),
           (list_in "confidence_building" areas),
           (list_in "technical_depth" areas),
           (list_in "leadership" areas);
    cbn [app PyStr.join];
    eexists ("You are interviewing for " +:+ job_title +:+ "." +:+ " "), _;
    rewrite !append_assoc; reflexivity.
Qed.

Lemma create_adaptive_interviewer_warm_up_witness :
  create_adaptive_interviewer "Data Analyst" (dict [("overall", 95)]) 2 ["pacing"]
  = create_adaptive_interviewer "Data Analyst" (dict [("overall", 10)]) 2 ["pacing"].
Proof.
  destruct (create_adaptive_interviewer_warm_up "Data Analyst" (dict [("overall", 95)])
              (dict [("overall", 10)]) 2 ["pacing"]) as [H _]; [lia | exact H].
Defined.

Lemma list_in_ext (tag : string) (areas areas' : list string) :
  (tag ∈ areas ↔ tag ∈ areas') → list_in tag areas = list_in tag areas'.
Proof. intros H. unfold list_in. by apply bool_decide_ext. Qed.

(** X21. The adaptive interviewer reads the focus areas only through
    the four tags [communication_skills], [confidence_building],
    [technical_depth] and [leadership]: two lists that agree on these
    give the same agent, so [pacing] never changes the interviewer. *)
Theorem create_adaptive_interviewer_ignores_pacing
    (job_title : string) (scores : gmap string Q) (n : Z) (areas areas' : list string) :
  (∀ tag, tag ∈ ["communication_skills"; "confidence_building"; "technical_depth";
                 "leadership"] →
          tag ∈ areas ↔ tag ∈ areas') →
  create_adaptive_interviewer job_title scores n areas
    = create_adaptive_interviewer job_title scores n areas'.
Proof.
  intros Hsame. unfold create_adaptive_interviewer.
  rewrite (list_in_ext "communication_skills" areas areas') by (apply Hsame; set_solver).
  rewrite (list_in_ext "confidence_building" areas areas') by (apply Hsame; set_solver).
  rewrite (list_in_ext "technical_depth" areas areas') by (apply Hsame; set_solver).
  rewrite (list_in_ext "leadership" areas areas') by (apply Hsame; set_solver).
  reflexivity.
Qed.

Lemma create_adaptive_interviewer_ignores_pacing_witness :
  create_adaptive_interviewer "Data Analyst" (dict [("overall", 95)]) 4
    ["pacing"; "leadership"]
  = create_adaptive_interviewer "Data Analyst" (dict [("overall", 95)]) 4 ["leadership"].
Proof.
  apply (create_adaptive_interviewer_ignores_pacing "Data Analyst").
  intros tag Htag.
  rewrite !elem_of_cons, elem_of_nil in Htag.
  rewrite !elem_of_cons, !elem_of_nil.
  destruct Htag as [->|[->|[->|[->|[]]]]]; split; intros H; try naive_solver.
Defined.

(** ** tasks.py: the question task *)






(** X23. The agent of the task is the interviewer passed in.  For a
    non-empty history the description of the task embeds, after
    "Performance Analysis:", the context computed from the aggregator's
    scores on that same history and from the focus areas for the job
    title; for the empty history the conversation context is "No previous
    responses", directly followed by the closing paragraph, with no
    performance analysis. *)
Theorem create_question_task_description
    (job_title : string) (interviewer : Agent) (n : Z) (h : list Interaction) (t : Task) :
  create_question_task job_title interviewer n h = Return t →
  agent t = interviewer ∧
  (h ≠ [] →
     ∃ scores pre post,
       calculate_performance_score (map turn h) = Return scores ∧
       description t
         = pre +:+ "Performance Analysis:" +:+ newline
           +:+ get_adaptive_question_context scores (identify_focus_areas scores job_title)
           +:+ post ∧
       (post = first_question_instruction ∨ post = later_question_instruction)) ∧
  (h = [] →
     ∃ pre post,
       description t = pre +:+ "No previous responses" +:+ post ∧
       (post = first_question_instruction ∨ post = later_question_instruction)).
Proof.
  unfold create_question_task. destruct h as [|x rest].
  - cbn [mbind outcome_bind length Nat.ltb Nat.leb]. intros [= <-].
    split; [reflexivity|]. split; [done|]. intros _.
    exists (question_preamble job_title n).
    destruct (n =? 1)%Z;
      [exists first_question_instruction | exists later_question_instruction];
      (split; [|by (left + right)]);
      unfold question_preamble; cbn [description];
      rewrite (append_nil_r "No previous responses"), !append_assoc; reflexivity.
  - destruct (conversation_lines 0 (x :: rest)) as [lines|e]; cbn [mbind outcome_bind];
      [|done].
    cbn [length Nat.ltb Nat.leb].
    destruct (calculate_performance_score (map turn (x :: rest))) as [scores|e];
      cbn [mbind outcome_bind]; [|done].
    intros [= <-]. split; [reflexivity|]. split; [|done]. intros _.
    exists scores,
      (question_preamble job_title n +:+ PyStr.join newline lines +:+ newline +:+ newline).
    destruct (n =? 1)%Z;
      [exists first_question_instruction | exists later_question_instruction];
      (split; [reflexivity|]); (split; [|by (left + right)]);
      unfold question_preamble; cbn [description];
      rewrite !append_assoc; reflexivity.
Qed.

Lemma create_question_task_description_witness :
  ∃ t, create_question_task "AI Engineer" (create_interviewer "AI Engineer" None) 2
         [interaction_valid_80] = Return t ∧
       agent t = create_interviewer "AI Engineer" None.
Proof.
  eexists. split; [vm_compute; reflexivity|].
  eapply (create_question_task_description "AI Engineer" _ 2 [interaction_valid_80]).
  vm_compute. reflexivity.
Defined.


Lemma empty_history_focus_areas_witness :
  ∃ d, calculate_performance_score [] = Return d ∧
       determine_difficulty_adjustment d 3 = "supportive".
Proof.
  destruct (empty_history_focus_areas "AI Engineer" 3) as (d & Hd & _ & _ & H).
  exists d. split; [exact Hd | apply H; lia].
Defined.


(** ** audio_analyzer.py: the entry point as a whole *)

